(** * Greeting handlers behind an API gateway

    A shallow embedding of the two Lambda handlers of the repository,

      - [http-get-lamda-function..py]   (the proxy handler) and
      - [non-proxy-lambda-processor.py] (the plain handler),

    together with the part of the Python runtime they call: [dict.get],
    truth testing, f-string formatting ([str], [repr]) and the [json]
    module ([json.dumps] as the handler calls it, [json.loads] to read the
    body back).

    Conventions of the embedding.
      - A Python [str] is the list of its code points ([N]); an [int] is a
        [Z]; a [float] is a binary64 value.
      - A [dict] is the list of its items in insertion order; look-up
        takes the first binding of a key (the keys of a real dict are
        distinct; no statement below needs that).  Keys are strings, as
        in every JSON-decoded event.
      - A call either returns a value or raises: [result].
      - Three pieces of the runtime are tables or numeric algorithms of
        CPython rather than logic of this repository: the Unicode
        "printable" table used by [repr], and the conversions between a
        float and its decimal text.  They are fields of [PyRuntime].
      - Two limits of the interpreter decide whether a conversion to text
        returns: the cap on the number of digits in conversions between
        [int] and [str] ([ValueError] beyond it), and the recursion limit
        ([RecursionError] beyond it).  Both are settings of the running
        interpreter, so they are fields of [PyRuntime] too:
        [int_max_str_digits] and [recursion_room].  [repr], [str],
        f-string formatting, [json.dumps] and [json.loads] raise
        accordingly.
      - Every statement holds for all instances of [PyRuntime].
      - Exhaustion of memory is not part of the model. *)

From Stdlib Require Import NArith ZArith List String Ascii Bool Lia.
From Stdlib Require Import DecimalString.
From Stdlib Require Import Floats.PrimFloat.
Import ListNotations.

Set Warnings "-register-all".

Local Open Scope N_scope.

(** ** Python values *)

Module Py.

(** A [str]: the sequence of its code points. *)
Definition pystr := list N.

(** An ASCII literal of the source, as a [str]. *)
Definition lit (s : string) : pystr :=
  map N_of_ascii (list_ascii_of_string s).

(** Code points are at most U+10FFFF. *)
Definition valid_str (s : pystr) : bool := forallb (fun c => c <=? 0x10FFFF) s.

Definition str_eqb (a b : pystr) : bool :=
  if list_eq_dec N.eq_dec a b then true else false.

Inductive pyval : Type :=
| PNone
| PBool (b : bool)
| PInt (z : Z)
| PFloat (f : float)
| PStr (s : pystr)
| PList (l : list pyval)
| PDict (d : list (pystr * pyval)).

Inductive pyexc : Type :=
| AttributeError
| ValueError
| RecursionError
| JSONDecodeError.

Inductive result (A : Type) : Type :=
| Ok (a : A)
| Raise (e : pyexc).

Arguments Ok {A} a.
Arguments Raise {A} e.

Definition bind {A B} (m : result A) (k : A -> result B) : result B :=
  match m with
  | Ok a => k a
  | Raise e => Raise e
  end.

Notation "x <- m ;; k" := (bind m (fun x => k))
  (at level 61, m at next level, right associativity).

(** [f] on every element, left to right, up to the first that raises. *)
Fixpoint traverse {A B : Type} (f : A -> result B) (l : list A)
  : result (list B) :=
  match l with
  | [] => Ok []
  | x :: l' =>
      match f x with
      | Ok y =>
          match traverse f l' with
          | Ok ys => Ok (y :: ys)
          | Raise e => Raise e
          end
      | Raise e => Raise e
      end
  end.

(** The parts of CPython that are data, numerics or configuration rather
    than logic. *)
Class PyRuntime : Type := {
  (** [str.isprintable] on one code point above U+007F (the Unicode
      database); consulted by [repr] only. *)
  unicode_isprintable : N -> bool;
  (** [float.__repr__]: the shortest decimal text that reads back as the
      same binary64 value. *)
  float_repr : float -> pystr;
  (** [float(text)] on the text of a JSON number. *)
  float_of_literal : pystr -> float;
  (** [sys.get_int_max_str_digits()]: the cap on the number of digits of
      an [int] converted to or from decimal text; 0 switches the check
      off.  CPython sets 4300 unless configured otherwise; an interpreter
      from before the cap behaves as 0. *)
  int_max_str_digits : N;
  (** How many nested calls the recursion limit still allows, beyond a
      first one, at the point where the handler formats a value or
      encodes its response, or where a reader decodes the body. *)
  recursion_room : nat
}.

(** *** Truth value testing: [bool(x)] *)

Definition truth (v : pyval) : bool :=
  match v with
  | PNone => false
  | PBool b => b
  | PInt z => negb (z =? 0)%Z
  | PFloat f => negb (PrimFloat.eqb f PrimFloat.zero)
  | PStr s => match s with [] => false | _ :: _ => true end
  | PList l => match l with [] => false | _ :: _ => true end
  | PDict d => match d with [] => false | _ :: _ => true end
  end.

(** *** Dictionaries *)

Fixpoint dict_get (d : list (pystr * pyval)) (k : pystr) : option pyval :=
  match d with
  | [] => None
  | (k', v) :: d' => if str_eqb k' k then Some v else dict_get d' k
  end.

(** [d[k] = v]: an existing key keeps its place. *)
Fixpoint dict_set (d : list (pystr * pyval)) (k : pystr) (v : pyval)
  : list (pystr * pyval) :=
  match d with
  | [] => [(k, v)]
  | (k', v') :: d' =>
      if str_eqb k' k then (k', v) :: d' else (k', v') :: dict_set d' k v
  end.

(** The method call [obj.get(key, default)].  Of the values of the model
    only a [dict] has a [get] attribute. *)
Definition get (obj : pyval) (key : pystr) (default : pyval) : result pyval :=
  match obj with
  | PDict d =>
      match dict_get d key with
      | Some v => Ok v
      | None => Ok default
      end
  | _ => Raise AttributeError
  end.

(** *** Text of values: [repr] and [str] *)

(** [Py_hexdigits]: the lower-case digit of [d < 16]. *)
Definition hexdigit (d : N) : N :=
  if d <? 10 then 48 + d else 87 + d.

(** [width] hexadecimal digits of [c], most significant first. *)
Fixpoint hex (width : nat) (c : N) : pystr :=
  match width with
  | O => []
  | S w => hex w (c / 16) ++ [hexdigit (c mod 16)]
  end.

(** The decimal text of an [int]: digits, a minus sign when negative. *)
Definition int_text (z : Z) : pystr :=
  lit (NilZero.string_of_int (Z.to_int z)).

Fixpoint join (sep : pystr) (parts : list pystr) : pystr :=
  match parts with
  | [] => []
  | [p] => p
  | p :: ps => p ++ sep ++ join sep ps
  end.

Section Text.
Context {R : PyRuntime}.

(** [_PY_LONG_MAX_STR_DIGITS_THRESHOLD]: below it no conversion is ever
    refused. *)
Definition max_str_digits_threshold : N := 640.

(** The check of a conversion between an [int] and a text of [len]
    characters, [digits] of them digits. *)
Definition exceeds_digit_limit (len digits : N) : bool :=
  (max_str_digits_threshold <? len)
  && (0 <? int_max_str_digits)
  && (int_max_str_digits <? digits).

(** [int.__repr__] ([long_to_decimal_string]): the decimal text, or
    [ValueError] when it has more digits than the cap. *)
Definition int_repr (z : Z) : result pystr :=
  let text := int_text z in
  let len := N.of_nat (List.length text) in
  let digits := if (z <? 0)%Z then len - 1 else len in
  if exceeds_digit_limit len digits then Raise ValueError else Ok text.

(** One character of [unicode_repr], inside quotes [quote]. *)
Definition repr_char (quote c : N) : pystr :=
  if (c =? quote) || (c =? 92) then [92; c]
  else if c =? 9 then [92; 116]
  else if c =? 10 then [92; 110]
  else if c =? 13 then [92; 114]
  else if (c <? 32) || (c =? 127) then 92 :: 120 :: hex 2 c
  else if c <? 127 then [c]
  else if unicode_isprintable c then [c]
  else if c <=? 0xFF then 92 :: 120 :: hex 2 c
  else if c <=? 0xFFFF then 92 :: 117 :: hex 4 c
  else 92 :: 85 :: hex 8 c.

(** [repr] of a [str]: single quotes, unless the text holds a single
    quote and no double quote. *)
Definition str_repr (s : pystr) : pystr :=
  let squote := existsb (N.eqb 39) s in
  let dquote := existsb (N.eqb 34) s in
  let quote := if squote && negb dquote then 34 else 39 in
  quote :: flat_map (repr_char quote) s ++ [quote].

(** [PyObject_Repr] with [depth] nested calls left.  Every call takes
    one, the calls on the elements of a list, and on the keys and the
    values of a dict, included; with none left it raises
    [RecursionError]. *)
Fixpoint repr (depth : nat) (v : pyval) {struct v} : result pystr :=
  match depth with
  | O => Raise RecursionError
  | S depth' =>
    match v with
    | PNone => Ok (lit "None")
    | PBool true => Ok (lit "True")
    | PBool false => Ok (lit "False")
    | PInt z => int_repr z
    | PFloat f => Ok (float_repr f)
    | PStr s => Ok (str_repr s)
    | PList l =>
        parts <- traverse (repr depth') l ;;
        Ok (lit "[" ++ join (lit ", ") parts ++ lit "]")
    | PDict d =>
        parts <- traverse
                   (fun kv =>
                      match kv with
                      | (k, x) =>
                          match depth' with
                          | O => Raise RecursionError
                          | S _ =>
                              xr <- repr depth' x ;;
                              Ok (str_repr k ++ lit ": " ++ xr)
                          end
                      end) d ;;
        Ok (lit "{" ++ join (lit ", ") parts ++ lit "}")
    end
  end.

(** [str(v)]: the text itself for a [str]; for the other types of the
    model [repr], which has the room the recursion limit leaves. *)
Definition str (v : pyval) : result pystr :=
  match v with
  | PStr s => Ok s
  | _ => repr (S recursion_room) v
  end.

(** A replacement field [{v}] of an f-string: [format(v, '')], which for
    every type of the model is [str(v)]. *)
Definition format (v : pyval) : result pystr := str v.

End Text.

End Py.

Import Py.

(** ** The [json] module *)

Module Json.
Import Py.

(** *** Encoding: [json.dumps] with its default arguments

    ([ensure_ascii=True], separators [", "] and [": "], [allow_nan=True],
    no indentation, keys in insertion order). *)

(** [S_CHAR]: printable ASCII other than the quote and the backslash. *)
Definition S_CHAR (c : N) : bool :=
  (32 <=? c) && (c <=? 126) && negb (c =? 92) && negb (c =? 34).

Definition high_surrogate (c : N) : N := 0xD800 - 0x40 + N.shiftr c 10.
Definition low_surrogate (c : N) : N := 0xDC00 + N.land c 0x3FF.

(** [ascii_escape_unichar]. *)
Definition escape_char (c : N) : pystr :=
  if c =? 92 then [92; 92]
  else if c =? 34 then [92; 34]
  else if c =? 8 then [92; 98]
  else if c =? 12 then [92; 102]
  else if c =? 10 then [92; 110]
  else if c =? 13 then [92; 114]
  else if c =? 9 then [92; 116]
  else if 0x10000 <=? c then
    92 :: 117 :: hex 4 (high_surrogate c)
    ++ 92 :: 117 :: hex 4 (low_surrogate c)
  else 92 :: 117 :: hex 4 c.

Definition encode_char (c : N) : pystr :=
  if S_CHAR c then [c] else escape_char c.

(** [encode_basestring_ascii]. *)
Definition encode_basestring_ascii (s : pystr) : pystr :=
  34 :: flat_map encode_char s ++ [34].

Section Encoder.
Context {R : PyRuntime}.

(** [floatstr]. *)
Definition floatstr (f : float) : pystr :=
  if PrimFloat.is_nan f then lit "NaN"
  else if PrimFloat.eqb f PrimFloat.infinity then lit "Infinity"
  else if PrimFloat.eqb f PrimFloat.neg_infinity then lit "-Infinity"
  else float_repr f.

(** [encoder_listencode_obj] with [depth] nested calls left: entering a
    list or a dict takes one, and with none left raises [RecursionError];
    an [int] is written by [int.__repr__]. *)
Fixpoint encode (depth : nat) (v : pyval) {struct v} : result pystr :=
  match v with
  | PNone => Ok (lit "null")
  | PBool true => Ok (lit "true")
  | PBool false => Ok (lit "false")
  | PInt z => int_repr z
  | PFloat f => Ok (floatstr f)
  | PStr s => Ok (encode_basestring_ascii s)
  | PList l =>
      match depth with
      | O => Raise RecursionError
      | S depth' =>
          parts <- traverse (encode depth') l ;;
          Ok (lit "[" ++ join (lit ", ") parts ++ lit "]")
      end
  | PDict d =>
      match depth with
      | O => Raise RecursionError
      | S depth' =>
          parts <- traverse
                     (fun kv =>
                        match kv with
                        | (k, x) =>
                            xr <- encode depth' x ;;
                            Ok (encode_basestring_ascii k ++ lit ": " ++ xr)
                        end) d ;;
          Ok (lit "{" ++ join (lit ", ") parts ++ lit "}")
      end
  end.

(** [json.dumps(obj)]. *)
Definition dumps (obj : pyval) : result pystr :=
  encode (S recursion_room) obj.

End Encoder.

(** *** Decoding: [json.loads] with its default arguments

    The scanner of [_json.c].  Every failure is a [JSONDecodeError]; its
    message and position are not kept. *)

Definition is_ws (c : N) : bool :=
  (c =? 32) || (c =? 9) || (c =? 10) || (c =? 13).

Fixpoint skip_ws (s : pystr) : pystr :=
  match s with
  | c :: s' => if is_ws c then skip_ws s' else s
  | [] => []
  end.

Definition is_digit (c : N) : bool := (48 <=? c) && (c <=? 57).

(** The value of one hexadecimal digit, either case. *)
Definition hexval (c : N) : option N :=
  if is_digit c then Some (c - 48)
  else if (97 <=? c) && (c <=? 102) then Some (c - 87)
  else if (65 <=? c) && (c <=? 70) then Some (c - 55)
  else None.

Definition hex4 (h1 h2 h3 h4 : N) : option N :=
  match hexval h1, hexval h2, hexval h3, hexval h4 with
  | Some a, Some b, Some c, Some d => Some (((a * 16 + b) * 16 + c) * 16 + d)
  | _, _, _, _ => None
  end.

Definition is_high_surrogate (c : N) : bool := (0xD800 <=? c) && (c <=? 0xDBFF).
Definition is_low_surrogate (c : N) : bool := (0xDC00 <=? c) && (c <=? 0xDFFF).

(** [Py_UNICODE_JOIN_SURROGATES]. *)
Definition join_surrogates (high low : N) : N :=
  0x10000 + N.lor (N.shiftl (N.land high 0x3FF) 10) (N.land low 0x3FF).

(** The one-letter escapes. *)
Definition unescape (e : N) : option N :=
  if e =? 34 then Some 34
  else if e =? 92 then Some 92
  else if e =? 47 then Some 47
  else if e =? 98 then Some 8
  else if e =? 102 then Some 12
  else if e =? 110 then Some 10
  else if e =? 114 then Some 13
  else if e =? 116 then Some 9
  else None.

Definition cons_char (c : N) (r : result (pystr * pystr))
  : result (pystr * pystr) :=
  match r with
  | Ok (str, rest) => Ok (c :: str, rest)
  | Raise e => Raise e
  end.

(** [scanstring_unicode] in strict mode, started after the opening quote:
    the decoded text and what follows the closing quote. *)
Fixpoint scanstring (s : pystr) : result (pystr * pystr) :=
  match s with
  | [] => Raise JSONDecodeError
  | c :: s1 =>
    if c =? 34 then Ok ([], s1)
    else if c =? 92 then
      match s1 with
      | [] => Raise JSONDecodeError
      | e :: s2 =>
        if e =? 117 then
          match s2 with
          | h1 :: h2 :: h3 :: h4 :: ((_ :: _) as s3) =>
            match hex4 h1 h2 h3 h4 with
            | None => Raise JSONDecodeError
            | Some uni =>
              if is_high_surrogate uni then
                match s3 with
                | b :: u :: g1 :: g2 :: g3 :: g4 :: ((_ :: _) as s4) =>
                  if (b =? 92) && (u =? 117) then
                    match hex4 g1 g2 g3 g4 with
                    | None => Raise JSONDecodeError
                    | Some uni2 =>
                      if is_low_surrogate uni2
                      then cons_char (join_surrogates uni uni2) (scanstring s4)
                      else cons_char uni (scanstring s3)
                    end
                  else cons_char uni (scanstring s3)
                | _ => cons_char uni (scanstring s3)
                end
              else cons_char uni (scanstring s3)
            end
          | _ => Raise JSONDecodeError
          end
        else
          match unescape e with
          | Some ch => cons_char ch (scanstring s2)
          | None => Raise JSONDecodeError
          end
      end
    else if c <=? 0x1F then Raise JSONDecodeError
    else cons_char c (scanstring s1)
  end.

(** The text [s] without its prefix [p], when it starts with [p]. *)
Fixpoint strip_prefix (p s : pystr) : option pystr :=
  match p, s with
  | [], _ => Some s
  | a :: p', b :: s' => if a =? b then strip_prefix p' s' else None
  | _ :: _, [] => None
  end.

(** The longest run of decimal digits at the start of [s], and the rest. *)
Fixpoint span_digits (s : pystr) : pystr * pystr :=
  match s with
  | c :: s' =>
      if is_digit c
      then let (ds, r) := span_digits s' in (c :: ds, r)
      else ([], s)
  | [] => ([], [])
  end.

(** The value of a run of decimal digits. *)
Definition int_of_digits (ds : pystr) : Z :=
  fold_left (fun acc c => (acc * 10 + Z.of_N (c - 48))%Z) ds 0%Z.

Section Decoder.
Context {R : PyRuntime}.

(** The fraction [.ddd] at the start of [s], if there is one. *)
Definition match_fraction (s : pystr) : pystr * pystr :=
  match s with
  | dot :: d :: s' =>
      if (dot =? 46) && is_digit d
      then let (ds, r) := span_digits s' in (dot :: d :: ds, r)
      else ([], s)
  | _ => ([], s)
  end.

(** The exponent [e+dd] at the start of [s]; without a digit it is not
    one, and nothing is consumed. *)
Definition match_exponent (s : pystr) : pystr * pystr :=
  match s with
  | e :: s' =>
      if (e =? 101) || (e =? 69) then
        let (sign, s'') :=
          match s' with
          | g :: t => if (g =? 45) || (g =? 43) then ([g], t) else ([], s')
          | [] => ([], s')
          end in
        let (ds, r) := span_digits s'' in
        match ds with
        | [] => ([], s)
        | _ :: _ => (e :: sign ++ ds, r)
        end
      else ([], s)
  | [] => ([], s)
  end.

(** [_match_number_unicode]: an optional minus sign; a zero, or a
    non-zero digit and further digits; an optional fraction; an optional
    exponent.  A fraction or an exponent makes the number a float;
    otherwise it is read by [int(text)], which raises [ValueError] when
    the digits are more than the cap. *)
Definition match_number (s : pystr) : result (pyval * pystr) :=
  let (sign, s1) :=
    match s with
    | c :: s' => if c =? 45 then ([c], s') else ([], s)
    | [] => ([], s)
    end in
  match s1 with
  | [] => Raise JSONDecodeError
  | c :: s2 =>
      let after_int (digits r : pystr) : result (pyval * pystr) :=
        let (frac, r1) := match_fraction r in
        let (exp, r2) := match_exponent r1 in
        match frac ++ exp with
        | [] =>
            let n := int_of_digits digits in
            let count := N.of_nat (List.length digits) in
            if exceeds_digit_limit count count then Raise ValueError
            else Ok (PInt (match sign with [] => n | _ :: _ => - n end)%Z, r2)
        | _ :: _ =>
            Ok (PFloat (float_of_literal (sign ++ digits ++ frac ++ exp)), r2)
        end in
      if (49 <=? c) && (c <=? 57) then
        let (ds, r) := span_digits s2 in after_int (c :: ds) r
      else if c =? 48 then after_int [c] s2
      else Raise JSONDecodeError
  end.

(** The named constants, tried before a number. *)
Definition match_constant (s : pystr) : option (pyval * pystr) :=
  match strip_prefix (lit "null") s with
  | Some r => Some (PNone, r)
  | None =>
  match strip_prefix (lit "true") s with
  | Some r => Some (PBool true, r)
  | None =>
  match strip_prefix (lit "false") s with
  | Some r => Some (PBool false, r)
  | None =>
  match strip_prefix (lit "NaN") s with
  | Some r => Some (PFloat PrimFloat.nan, r)
  | None =>
  match strip_prefix (lit "Infinity") s with
  | Some r => Some (PFloat PrimFloat.infinity, r)
  | None =>
  match strip_prefix (lit "-Infinity") s with
  | Some r => Some (PFloat PrimFloat.neg_infinity, r)
  | None => None
  end end end end end end.

(** [scan_once_unicode] with [_parse_object_unicode] ([members]) and
    [_parse_array_unicode] ([elements]).  [depth] is the number of nested
    calls left: entering an object or an array takes one, and with none
    left raises [RecursionError].  The recursion of the C code is on the
    nesting of the text; here it is on [fuel], and [None] means the fuel
    ran out ([scan_once_fuel] shows that it does not when the fuel
    exceeds twice the length of the text). *)
Fixpoint scan_once (fuel : nat) (depth : nat) (s : pystr)
  : option (result (pyval * pystr)) :=
  match fuel with
  | O => None
  | S fuel' =>
    match s with
    | [] => Some (Raise JSONDecodeError)
    | c :: s1 =>
      if c =? 34 then
        Some (match scanstring s1 with
              | Ok (str, r) => Ok (PStr str, r)
              | Raise e => Raise e
              end)
      else if c =? 123 then
        match depth with
        | O => Some (Raise RecursionError)
        | S depth' =>
          match skip_ws s1 with
          | [] => Some (Raise JSONDecodeError)
          | c2 :: s2 =>
              if c2 =? 125 then Some (Ok (PDict [], s2))
              else members fuel' depth' (c2 :: s2) []
          end
        end
      else if c =? 91 then
        match depth with
        | O => Some (Raise RecursionError)
        | S depth' =>
          match skip_ws s1 with
          | [] => Some (Raise JSONDecodeError)
          | c2 :: s2 =>
              if c2 =? 93 then Some (Ok (PList [], s2))
              else elements fuel' depth' (c2 :: s2) []
          end
        end
      else
        match match_constant s with
        | Some found => Some (Ok found)
        | None => Some (match_number s)
        end
    end
  end

with members (fuel : nat) (depth : nat) (s : pystr)
    (acc : list (pystr * pyval))
  : option (result (pyval * pystr)) :=
  match fuel with
  | O => None
  | S fuel' =>
    match s with
    | [] => Some (Raise JSONDecodeError)
    | c :: s1 =>
      if c =? 34 then
        match scanstring s1 with
        | Raise e => Some (Raise e)
        | Ok (key, s2) =>
          match skip_ws s2 with
          | [] => Some (Raise JSONDecodeError)
          | c2 :: s3 =>
            if c2 =? 58 then
              match scan_once fuel' depth (skip_ws s3) with
              | None => None
              | Some (Raise e) => Some (Raise e)
              | Some (Ok (v, s4)) =>
                let acc' := dict_set acc key v in
                match skip_ws s4 with
                | [] => Some (Raise JSONDecodeError)
                | c3 :: s5 =>
                  if c3 =? 125 then Some (Ok (PDict acc', s5))
                  else if c3 =? 44 then members fuel' depth (skip_ws s5) acc'
                  else Some (Raise JSONDecodeError)
                end
              end
            else Some (Raise JSONDecodeError)
          end
        end
      else Some (Raise JSONDecodeError)
    end
  end

with elements (fuel : nat) (depth : nat) (s : pystr) (acc : list pyval)
  : option (result (pyval * pystr)) :=
  match fuel with
  | O => None
  | S fuel' =>
    match scan_once fuel' depth s with
    | None => None
    | Some (Raise e) => Some (Raise e)
    | Some (Ok (v, s1)) =>
      let acc' := acc ++ [v] in
      match skip_ws s1 with
      | [] => Some (Raise JSONDecodeError)
      | c :: s2 =>
        if c =? 93 then Some (Ok (PList acc', s2))
        else if c =? 44 then elements fuel' depth (skip_ws s2) acc'
        else Some (Raise JSONDecodeError)
      end
    end
  end.

(** [json.loads(s)]: one value, white space around it, nothing else. *)
Definition loads (s : pystr) : result pyval :=
  match strip_prefix [0xFEFF] s with
  | Some _ => Raise JSONDecodeError
  | None =>
    match scan_once (S (2 * List.length s)) (S recursion_room)
            (skip_ws s) with
    | Some (Ok (v, rest)) =>
        match skip_ws rest with
        | [] => Ok v
        | _ :: _ => Raise JSONDecodeError
        end
    | Some (Raise e) => Raise e
    | None => Raise JSONDecodeError
    end
  end.

End Decoder.

End Json.

(** ** The handlers *)

(** [http-get-lamda-function..py] *)
Module HttpGet.
Import Py.

Section Handler.
Context {R : PyRuntime} {Context_ : Type}.

Definition lambda_handler (event : pyval) (context : Context_)
  : result pyval :=
  let name := PStr (lit "World") in
  q <- get event (lit "queryStringParameters") PNone ;;
  name <- (if truth q
           then params <- get event (lit "queryStringParameters") PNone ;;
                get params (lit "name") name
           else Ok name) ;;
  text <- format name ;;
  let response_data :=
    PDict [(lit "message",
            PStr (lit "Hello, " ++ text
                  ++ lit "! Your request was successful."));
           (lit "status", PStr (lit "success"))] in
  body <- Json.dumps response_data ;;
  Ok (PDict [(lit "statusCode", PInt 200);
             (lit "headers",
              PDict [(lit "Content-Type", PStr (lit "application/json"))]);
             (lit "body", PStr body)]).

End Handler.
End HttpGet.

(** [non-proxy-lambda-processor.py] *)
Module NonProxy.
Import Py.

Section Handler.
Context {R : PyRuntime} {Context_ : Type}.

Definition lambda_handler (event : pyval) (context : Context_)
  : result pyval :=
  name <- get event (lit "name") (PStr (lit "World")) ;;
  text <- format name ;;
  Ok (PDict [(lit "greeting",
              PStr (lit "Hello from non-proxy, " ++ text ++ lit "!"))]).

End Handler.
End NonProxy.

(** ** Shapes of events and results

    Abbreviations used by the statements below. *)

Import Py.

(** The entry of [v] under key [k], when [v] is a mapping that has one. *)
Definition field (v : pyval) (k : pystr) : option pyval :=
  match v with
  | PDict d => dict_get d k
  | _ => None
  end.

Definition is_mapping (v : pyval) : bool :=
  match v with
  | PDict _ => true
  | _ => false
  end.

Definition is_str (v : pyval) : bool :=
  match v with
  | PStr _ => true
  | _ => false
  end.

(** [needle in hay]. *)
Definition contains (needle hay : pystr) : Prop :=
  exists before after, hay = before ++ needle ++ after.

(** The greeting of the proxy handler around the text [n]. *)
Definition proxy_message (n : pystr) : pystr :=
  lit "Hello, " ++ n ++ lit "! Your request was successful.".

(** The handler's [response_data] for a message [m]. *)
Definition proxy_data (m : pystr) : pyval :=
  PDict [(lit "message", PStr m); (lit "status", PStr (lit "success"))].

(** The envelope the proxy handler returns around a body. *)
Definition proxy_response (body : pystr) : pyval :=
  PDict [(lit "statusCode", PInt 200);
         (lit "headers",
          PDict [(lit "Content-Type", PStr (lit "application/json"))]);
         (lit "body", PStr body)].

(** The payload of the plain handler around the text [n]. *)
Definition plain_response (n : pystr) : pyval :=
  PDict [(lit "greeting",
          PStr (lit "Hello from non-proxy, " ++ n ++ lit "!"))].

(** [s] between double quotes, nothing escaped. *)
Definition quoted (s : pystr) : pystr := 34 :: s ++ [34].

(** The body format of the specification with [n] written into it as it
    is: [{"message": "Hello, n! Your request was successful.", "status":
    "success"}]. *)
Definition body_template (n : pystr) : pystr :=
  lit "{" ++ quoted (lit "message") ++ lit ": " ++ quoted (proxy_message n)
  ++ lit ", " ++ quoted (lit "status") ++ lit ": " ++ quoted (lit "success")
  ++ lit "}".

(** The text [n] as [json.dumps] writes it inside a string. *)
Definition json_escaped (n : pystr) : pystr := flat_map Json.encode_char n.

(** The name the proxy handler settles on (its first three statements). *)
Definition resolved_name (event : pyval) : result pyval :=
  let name := PStr (lit "World") in
  q <- get event (lit "queryStringParameters") PNone ;;
  if truth q
  then params <- get event (lit "queryStringParameters") PNone ;;
       get params (lit "name") name
  else Ok name.

(** The event of the second scenario of the specification. *)
Definition ada_query : pyval :=
  PDict [(lit "queryStringParameters", PDict [(lit "name", PStr (lit "Ada"))])].

(** *** Surrogates *)

(** The text at [s] is an escape that the scanner, having just read a
    high surrogate, would take for the second half of a pair (or fail
    on). *)
Definition low_escape_ahead (s : pystr) : bool :=
  match s with
  | b :: u :: g1 :: g2 :: g3 :: g4 :: _ :: _ =>
      (b =? 92) && (u =? 117)
      && match Json.hex4 g1 g2 g3 g4 with
         | Some uni2 => Json.is_low_surrogate uni2
         | None => true
         end
  | _ => false
  end.

(** No high surrogate of [s] is directly followed by a low surrogate. *)
Fixpoint pair_free (s : pystr) : bool :=
  match s with
  | [] => true
  | a :: t =>
      match t with
      | b :: _ =>
          negb (Json.is_high_surrogate a && Json.is_low_surrogate b)
      | [] => true
      end && pair_free t
  end.

(** What reading back does to a text the encoder wrote: a high
    surrogate directly followed by a low surrogate becomes the one code
    point they stand for in UTF-16. *)
Fixpoint merge_pairs (s : pystr) : pystr :=
  match s with
  | [] => []
  | a :: t =>
      match t with
      | b :: t' =>
          if Json.is_high_surrogate a && Json.is_low_surrogate b
          then Json.join_surrogates a b :: merge_pairs t'
          else a :: merge_pairs t
      | [] => [a]
      end
  end.

(** Printable ASCII: U+0020 to U+007E. *)
Definition printable_ascii (c : N) : bool := (32 <=? c) && (c <=? 126).

(** The events on which every [get] of the proxy handler succeeds: a
    mapping whose queryStringParameters entry is absent, false in a
    condition, or a mapping. *)
Definition proxy_accepts (event : pyval) : bool :=
  match event with
  | PDict d =>
      match dict_get d (lit "queryStringParameters") with
      | None => true
      | Some q => negb (truth q) || is_mapping q
      end
  | _ => false
  end.

(** *** Scanning *)

(** The scan ran to an end (it did not starve), and when it returned a
    value it consumed some of the text. *)
Definition progresses (res : option (result (pyval * pystr))) (s : pystr)
  : Prop :=
  exists out, res = Some out
              /\ forall v r, out = Ok (v, r) -> (List.length r < List.length s)%nat.

(** The constant parts of the body, before and after the message. *)
Definition body_prefix : pystr :=
  Eval vm_compute in lit "{" ++ quoted (lit "message") ++ lit ": " ++ [34].

Definition body_suffix : pystr :=
  Eval vm_compute in
    [34] ++ lit ", " ++ quoted (lit "status") ++ lit ": "
    ++ quoted (lit "success") ++ lit "}".

(** *** Values that can be formatted *)

(** A list nested [n] levels under one empty list. *)
Fixpoint nested (n : nat) : pyval :=
  match n with
  | O => PList []
  | S n' => PList [nested n']
  end.

Section Formattable.
Context {R : PyRuntime}.

(** The decimal text of [z] passes the digit cap. *)
Definition int_within_cap (z : Z) : bool :=
  let len := N.of_nat (List.length (int_text z)) in
  negb (exceeds_digit_limit len (if (z <? 0)%Z then len - 1 else len)).

(** [v] can be printed with [depth] nested calls: every [int] in it is
    within the cap, and no list or dict in it lies deeper than the calls
    reach (a leaf, a key included, takes a call too). *)
Fixpoint printable (depth : nat) (v : pyval) {struct v} : bool :=
  match depth with
  | O => false
  | S depth' =>
    match v with
    | PInt z => int_within_cap z
    | PList l => forallb (printable depth') l
    | PDict d =>
        forallb (fun kv => match depth' with
                           | O => false
                           | S _ => printable depth' (snd kv)
                           end) d
    | _ => true
    end
  end.

(** [v] can be formatted in an f-string: a string always, any other
    value when [repr] can print it in the room the recursion limit
    leaves. *)
Definition formattable (v : pyval) : bool :=
  match v with
  | PStr _ => true
  | _ => printable (S recursion_room) v
  end.

End Formattable.

(** The errors formatting can raise. *)
Definition format_error (e : pyexc) : Prop :=
  e = ValueError \/ e = RecursionError.

(** What a conversion to text comes to, given whether it is allowed. *)
Definition outcome {A : Type} (allowed : bool) (r : result A) : Prop :=
  if allowed then exists a, r = Ok a
  else exists e, r = Raise e /\ format_error e.

(** The name the plain handler settles on. *)
Definition plain_name (d : list (pystr * pyval)) : pyval :=
  match dict_get d (lit "name") with
  | Some x => x
  | None => PStr (lit "World")
  end.

(** ** Facts about the runtime *)

Module PyFacts.

Lemma str_eqb_refl (s : pystr) : str_eqb s s = true.
Proof.
  unfold str_eqb. destruct (list_eq_dec N.eq_dec s s); congruence.
Qed.

Lemma str_eqb_eq (a b : pystr) : str_eqb a b = true <-> a = b.
Proof.
  unfold str_eqb. destruct (list_eq_dec N.eq_dec a b); split; congruence.
Qed.

(** A dict in which a key is found is not empty, hence true. *)
Lemma truth_of_found (d : list (pystr * pyval)) (k : pystr) (v : pyval) :
  dict_get d k = Some v -> truth (PDict d) = true.
Proof. destruct d; [discriminate|reflexivity]. Qed.

Lemma traverse_outcome {A B : Type} (f : A -> result B) (h : A -> bool)
    (l : list A) :
  (forall x, outcome (h x) (f x)) -> outcome (forallb h l) (traverse f l).
Proof.
  intro Hf. induction l as [|x l IH].
  - exists []. reflexivity.
  - cbn [forallb traverse]. specialize (Hf x). unfold outcome in *.
    destruct (h x).
    + destruct Hf as [y ->]. cbn [andb]. destruct (forallb h l).
      * destruct IH as [ys ->]. eexists. reflexivity.
      * destruct IH as (e & -> & He). exists e. split; [reflexivity|exact He].
    + destruct Hf as (e & -> & He). exists e. split; [reflexivity|exact He].
Qed.

Section Formatting.
Context {R : PyRuntime}.

Lemma format_str (s : pystr) : format (PStr s) = Ok s.
Proof. reflexivity. Qed.

Lemma format_non_str (v : pyval) :
  is_str v = false -> format v = repr (S recursion_room) v.
Proof. destruct v; [reflexivity..|discriminate|reflexivity|reflexivity]. Qed.

Lemma formattable_non_str (v : pyval) :
  is_str v = false -> formattable v = printable (S recursion_room) v.
Proof. destruct v; [reflexivity..|discriminate|reflexivity|reflexivity]. Qed.

Lemma int_repr_outcome (z : Z) : outcome (int_within_cap z) (int_repr z).
Proof.
  unfold outcome, int_within_cap, int_repr.
  destruct (exceeds_digit_limit _ _); cbn [negb].
  - exists ValueError. split; [reflexivity|left; reflexivity].
  - eexists. reflexivity.
Qed.

(** [repr] returns exactly on the values that are [printable] in the
    depth it has, and otherwise raises one of the two errors. *)
Lemma repr_outcome (depth : nat) (v : pyval) :
  outcome (printable depth v) (repr depth v).
Proof.
  revert v. induction depth as [|depth IH]; intro v.
  - destruct v; exists RecursionError; (split; [reflexivity|right; reflexivity]).
  - destruct v as [|b|z|f|s|l|d].
    + eexists. reflexivity.
    + destruct b; eexists; reflexivity.
    + apply int_repr_outcome.
    + eexists. reflexivity.
    + eexists. reflexivity.
    + simpl printable. simpl repr.
      pose proof (traverse_outcome (repr depth) (printable depth) l IH) as H.
      unfold outcome in *. destruct (forallb (printable depth) l).
      * destruct H as [parts ->]. eexists. reflexivity.
      * destruct H as (e & -> & He). exists e. split; [reflexivity|exact He].
    + simpl printable. simpl repr.
      match goal with
      | |- outcome (forallb ?h d) (bind (traverse ?f d) _) =>
          assert (H : outcome (forallb h d) (traverse f d))
      end.
      { apply traverse_outcome. intros [k x]. cbn [snd].
        destruct depth as [|depth'].
        - exists RecursionError. split; [reflexivity|right; reflexivity].
        - specialize (IH x). unfold outcome in *.
          destruct (printable (S depth') x).
          + destruct IH as [xr ->]. eexists. reflexivity.
          + destruct IH as (e & -> & He). exists e.
            split; [reflexivity|exact He]. }
      unfold outcome in *.
      match goal with
      | H : if ?b then _ else _ |- _ => destruct b
      end.
      * destruct H as [parts ->]. eexists. reflexivity.
      * destruct H as (e & -> & He). exists e. split; [reflexivity|exact He].
Qed.

(** Formatting returns exactly on the [formattable] values, and
    otherwise raises [ValueError] or [RecursionError]. *)
Lemma format_outcome (v : pyval) : outcome (formattable v) (format v).
Proof.
  destruct v; try apply repr_outcome. eexists. reflexivity.
Qed.

Lemma format_formattable (v : pyval) :
  formattable v = true -> exists n, format v = Ok n.
Proof. intro H. pose proof (format_outcome v) as Ho. rewrite H in Ho. exact Ho. Qed.

Lemma format_unformattable (v : pyval) :
  formattable v = false -> exists e, format v = Raise e /\ format_error e.
Proof. intro H. pose proof (format_outcome v) as Ho. rewrite H in Ho. exact Ho. Qed.

Lemma format_ok_formattable (v : pyval) (n : pystr) :
  format v = Ok n -> formattable v = true.
Proof.
  intro H. pose proof (format_outcome v) as Ho.
  destruct (formattable v); [reflexivity|].
  destruct Ho as (e & He & _). congruence.
Qed.

Lemma format_raise_error (v : pyval) (e : pyexc) :
  format v = Raise e -> formattable v = false /\ format_error e.
Proof.
  intro H. pose proof (format_outcome v) as Ho.
  destruct (formattable v).
  - destruct Ho as [n Hn]. congruence.
  - destruct Ho as (e' & He & Herr). split; [reflexivity|congruence].
Qed.

(** A list nested as deep as the calls reach cannot be printed. *)
Lemma repr_nested (depth : nat) :
  repr depth (nested depth) = Raise RecursionError.
Proof.
  induction depth as [|depth IH]; [reflexivity|].
  destruct depth as [|depth']; [reflexivity|].
  change (nested (S (S depth'))) with (PList [nested (S depth')]).
  simpl repr. simpl repr in IH. rewrite IH. reflexivity.
Qed.

(** The two ways formatting fails, at the smallest values that show
    them. *)
Lemma int_repr_over_cap :
  int_max_str_digits = 4300 -> int_repr (10 ^ 4300) = Raise ValueError.
Proof.
  intro Hcap. unfold int_repr, exceeds_digit_limit. rewrite Hcap.
  vm_compute. reflexivity.
Qed.

Lemma format_over_cap :
  int_max_str_digits = 4300 -> format (PInt (10 ^ 4300)) = Raise ValueError.
Proof. exact int_repr_over_cap. Qed.

Lemma format_nested :
  format (nested (S recursion_room)) = Raise RecursionError.
Proof. exact (repr_nested (S recursion_room)). Qed.

(** A decimal text of at most 640 characters passes whatever the cap
    is. *)
Lemma short_int_within_cap (z : Z) :
  N.of_nat (List.length (int_text z)) <= max_str_digits_threshold ->
  int_within_cap z = true.
Proof.
  intro H. unfold int_within_cap, exceeds_digit_limit.
  apply N.ltb_ge in H. rewrite H. reflexivity.
Qed.

End Formatting.

End PyFacts.
(** ** Reading back what the encoder writes *)

Module JsonFacts.
Import Json.



Ltac boolean_tests :=
  repeat match goal with
  | H : (_ && _)%bool = true |- _ => apply andb_true_iff in H; destruct H
  | H : (_ || _)%bool = false |- _ => apply orb_false_iff in H; destruct H
  | H : negb _ = true |- _ => apply negb_true_iff in H
  | H : negb _ = false |- _ => apply negb_false_iff in H
  | H : (_ =? _) = true |- _ => apply N.eqb_eq in H
  | H : (_ =? _) = false |- _ => apply N.eqb_neq in H
  | H : (_ <=? _) = true |- _ => apply N.leb_le in H
  | H : (_ <=? _) = false |- _ => apply N.leb_gt in H
  | H : (_ <? _) = true |- _ => apply N.ltb_lt in H
  | H : (_ <? _) = false |- _ => apply N.ltb_ge in H
  end.

Lemma hexval_hexdigit (d : N) : d < 16 -> hexval (hexdigit d) = Some d.
Proof.
  intro Hd. unfold hexval, hexdigit, is_digit.
  destruct (d <? 10) eqn:E; boolean_tests.
  - replace ((48 <=? 48 + d) && (48 + d <=? 57))%bool with true.
    + f_equal. lia.
    + symmetry. apply andb_true_iff. split; apply N.leb_le; lia.
  - replace ((48 <=? 87 + d) && (87 + d <=? 57))%bool with false.
    + replace ((97 <=? 87 + d) && (87 + d <=? 102))%bool with true.
      * f_equal. lia.
      * symmetry. apply andb_true_iff. split; apply N.leb_le; lia.
    + symmetry. apply andb_false_iff. right. apply N.leb_gt. lia.
Qed.

Lemma hex_4 (u : N) :
  hex 4 u = [hexdigit (u / 16 / 16 / 16 mod 16); hexdigit (u / 16 / 16 mod 16);
             hexdigit (u / 16 mod 16); hexdigit (u mod 16)].
Proof. reflexivity. Qed.

Lemma hex4_hex (u : N) :
  u < 0x10000 ->
  hex4 (hexdigit (u / 16 / 16 / 16 mod 16)) (hexdigit (u / 16 / 16 mod 16))
       (hexdigit (u / 16 mod 16)) (hexdigit (u mod 16)) = Some u.
Proof.
  intro Hu. unfold hex4.
  rewrite !hexval_hexdigit by (apply N.mod_lt; discriminate).
  f_equal. zify. Z.to_euclidean_division_equations. lia.
Qed.

Lemma scanstring_plain (c : N) (tail : pystr) :
  S_CHAR c = true -> scanstring (c :: tail) = cons_char c (scanstring tail).
Proof.
  unfold S_CHAR. intro H. boolean_tests.
  cbn [scanstring].
  destruct (c =? 34) eqn:E1; boolean_tests; [congruence|].
  destruct (c =? 92) eqn:E2; boolean_tests; [congruence|].
  destruct (c <=? 31) eqn:E3; boolean_tests; [lia|reflexivity].
Qed.

Lemma scanstring_u (h1 h2 h3 h4 uni : N) (tail : pystr) :
  hex4 h1 h2 h3 h4 = Some uni ->
  tail <> [] ->
  (is_high_surrogate uni = true -> low_escape_ahead tail = false) ->
  scanstring (92 :: 117 :: h1 :: h2 :: h3 :: h4 :: tail)
  = cons_char uni (scanstring tail).
Proof.
  intros Hhex Hne Hlow.
  destruct tail as [|b tail]; [congruence|].
  change (scanstring (92 :: 117 :: h1 :: h2 :: h3 :: h4 :: b :: tail))
    with (match hex4 h1 h2 h3 h4 with
          | None => Raise JSONDecodeError
          | Some uni =>
              if is_high_surrogate uni then
                match b :: tail with
                | b :: u :: g1 :: g2 :: g3 :: g4 :: ((_ :: _) as s4) =>
                  if (b =? 92) && (u =? 117) then
                    match hex4 g1 g2 g3 g4 with
                    | None => Raise JSONDecodeError
                    | Some uni2 =>
                      if is_low_surrogate uni2
                      then cons_char (join_surrogates uni uni2) (scanstring s4)
                      else cons_char uni (scanstring (b :: tail))
                    end
                  else cons_char uni (scanstring (b :: tail))
                | _ => cons_char uni (scanstring (b :: tail))
                end
              else cons_char uni (scanstring (b :: tail))
          end).
  rewrite Hhex.
  destruct (is_high_surrogate uni); [|reflexivity].
  specialize (Hlow eq_refl).
  destruct tail as [|u [|g1 [|g2 [|g3 [|g4 [|x tail]]]]]]; try reflexivity.
  unfold low_escape_ahead in Hlow.
  destruct ((b =? 92) && (u =? 117))%bool; [|reflexivity].
  destruct (hex4 g1 g2 g3 g4) as [uni2|]; [|discriminate].
  cbn in Hlow. rewrite Hlow. reflexivity.
Qed.

Lemma high_surrogate_div (c : N) : high_surrogate c = 0xD7C0 + c / 1024.
Proof. unfold high_surrogate. rewrite N.shiftr_div_pow2. reflexivity. Qed.

Lemma low_surrogate_mod (c : N) : low_surrogate c = 0xDC00 + c mod 1024.
Proof.
  unfold low_surrogate. change 0x3FF with (N.ones 10).
  rewrite N.land_ones. reflexivity.
Qed.

Lemma lor_shiftl_10 (a b : N) :
  b < 1024 -> N.lor (N.shiftl a 10) b = a * 1024 + b.
Proof.
  intro Hb. rewrite N.shiftl_mul_pow2. change (2 ^ 10) with 1024.
  assert (Hland : N.land (a * 1024) b = 0).
  { apply N.bits_inj_0. intro n. rewrite N.land_spec.
    destruct (N.lt_ge_cases n 10) as [L|G].
    - change 1024 with (2 ^ 10).
      rewrite N.mul_pow2_bits_low by assumption. reflexivity.
    - replace (N.testbit b n) with false; [apply andb_false_r|].
      symmetry. apply N.bits_above_log2.
      destruct (N.eq_dec b 0) as [->|NZ]; [simpl; lia|].
      apply N.log2_lt_pow2; [lia|].
      eapply N.lt_le_trans; [eassumption|].
      change 1024 with (2 ^ 10). apply N.pow_le_mono_r; lia. }
  rewrite <- N.lxor_lor, <- N.add_nocarry_lxor by assumption. reflexivity.
Qed.

Lemma join_surrogates_split (c : N) :
  0x10000 <= c <= 0x10FFFF ->
  join_surrogates (high_surrogate c) (low_surrogate c) = c.
Proof.
  intro Hc. unfold join_surrogates.
  rewrite high_surrogate_div, low_surrogate_mod.
  change 0x3FF with (N.ones 10). rewrite !N.land_ones.
  change (2 ^ 10) with 1024.
  rewrite lor_shiftl_10 by (apply N.mod_lt; discriminate).
  zify. Z.to_euclidean_division_equations. lia.
Qed.

Lemma high_surrogate_range (c : N) :
  0x10000 <= c <= 0x10FFFF ->
  0xD800 <= high_surrogate c <= 0xDBFF.
Proof.
  intro Hc. rewrite high_surrogate_div.
  zify. Z.to_euclidean_division_equations. lia.
Qed.

Lemma low_surrogate_range (c : N) : 0xDC00 <= low_surrogate c <= 0xDFFF.
Proof.
  rewrite low_surrogate_mod.
  zify. Z.to_euclidean_division_equations. lia.
Qed.

Lemma is_high_surrogate_true (u : N) :
  0xD800 <= u <= 0xDBFF -> is_high_surrogate u = true.
Proof.
  intro H. unfold is_high_surrogate.
  apply andb_true_iff. split; apply N.leb_le; lia.
Qed.

Lemma is_low_surrogate_true (u : N) :
  0xDC00 <= u <= 0xDFFF -> is_low_surrogate u = true.
Proof.
  intro H. unfold is_low_surrogate.
  apply andb_true_iff. split; apply N.leb_le; lia.
Qed.

Lemma is_low_surrogate_high (u : N) :
  u <= 0xDBFF -> is_low_surrogate u = false.
Proof.
  intro H. unfold is_low_surrogate.
  apply andb_false_iff. left. apply N.leb_gt. lia.
Qed.

(** The two escapes written for a code point above U+FFFF read back as
    that code point. *)
Lemma scanstring_pair (c : N) (tail : pystr) :
  0x10000 <= c <= 0x10FFFF ->
  tail <> [] ->
  scanstring (92 :: 117 :: hex 4 (high_surrogate c)
              ++ 92 :: 117 :: hex 4 (low_surrogate c) ++ tail)
  = cons_char c (scanstring tail).
Proof.
  intros Hc Hne.
  pose proof (high_surrogate_range c Hc) as Hh.
  pose proof (low_surrogate_range c) as Hl.
  destruct tail as [|x tail]; [congruence|].
  rewrite !hex_4.
  cbn [app].
  match goal with
  | |- scanstring (92 :: 117 :: ?h1 :: ?h2 :: ?h3 :: ?h4 :: 92 :: 117 :: ?g1 :: ?g2 :: ?g3 :: ?g4 :: x :: tail) = _ =>
    change (scanstring (92 :: 117 :: h1 :: h2 :: h3 :: h4 :: 92 :: 117 :: g1 :: g2 :: g3 :: g4 :: x :: tail))
      with (match hex4 h1 h2 h3 h4 with
            | None => Raise JSONDecodeError
            | Some uni =>
                if is_high_surrogate uni then
                  match hex4 g1 g2 g3 g4 with
                  | None => Raise JSONDecodeError
                  | Some uni2 =>
                      if is_low_surrogate uni2
                      then cons_char (join_surrogates uni uni2) (scanstring (x :: tail))
                      else cons_char uni
                             (scanstring (92 :: 117 :: g1 :: g2 :: g3 :: g4 :: x :: tail))
                  end
                else cons_char uni
                       (scanstring (92 :: 117 :: g1 :: g2 :: g3 :: g4 :: x :: tail))
            end)
  end.
  rewrite !hex4_hex by lia.
  rewrite is_high_surrogate_true, is_low_surrogate_true by assumption.
  rewrite join_surrogates_split by assumption.
  reflexivity.
Qed.

Lemma scanstring_encode_char (c : N) (tail : pystr) :
  c <= 0x10FFFF ->
  tail <> [] ->
  (is_high_surrogate c = true -> low_escape_ahead tail = false) ->
  scanstring (encode_char c ++ tail) = cons_char c (scanstring tail).
Proof.
  intros Hc Hne Hlow. unfold encode_char.
  destruct (S_CHAR c) eqn:Eplain; [apply scanstring_plain; assumption|].
  unfold escape_char.
  repeat match goal with
  | |- context [if ?c =? ?k then _ else _] =>
      destruct (c =? k) eqn:?; boolean_tests; [subst c; reflexivity|]
  end.
  destruct (0x10000 <=? c) eqn:Ebig; boolean_tests.
  - cbn [app]. rewrite <- app_assoc. cbn [app].
    apply scanstring_pair; [lia|assumption].
  - cbn [app]. rewrite hex_4. cbn [app].
    apply scanstring_u; [apply hex4_hex; lia|assumption|assumption].
Qed.

Lemma low_escape_ahead_quote (rest : pystr) : low_escape_ahead (34 :: rest) = false.
Proof.
  destruct rest as [|u [|g1 [|g2 [|g3 [|g4 [|x rest]]]]]]; reflexivity.
Qed.

Lemma low_escape_ahead_head (b : N) (rest : pystr) :
  b <> 92 -> low_escape_ahead (b :: rest) = false.
Proof.
  intro Hb. apply N.eqb_neq in Hb.
  destruct rest as [|u [|g1 [|g2 [|g3 [|g4 [|x rest]]]]]]; try reflexivity.
  unfold low_escape_ahead. rewrite Hb. reflexivity.
Qed.

Lemma low_escape_ahead_second (b u : N) (rest : pystr) :
  u <> 117 -> low_escape_ahead (b :: u :: rest) = false.
Proof.
  intro Hu. apply N.eqb_neq in Hu.
  destruct rest as [|g1 [|g2 [|g3 [|g4 [|x rest]]]]]; try reflexivity.
  unfold low_escape_ahead. rewrite Hu, andb_false_r. reflexivity.
Qed.

Lemma low_escape_ahead_hex (u : N) (rest : pystr) :
  u < 0x10000 -> is_low_surrogate u = false ->
  low_escape_ahead (92 :: 117 :: hex 4 u ++ rest) = false.
Proof.
  intros Hu Hlow. rewrite hex_4. cbn [app].
  destruct rest as [|x rest]; [reflexivity|].
  unfold low_escape_ahead. rewrite hex4_hex by assumption.
  rewrite Hlow. reflexivity.
Qed.

(** What the encoder writes for a code point that is not a low surrogate
    is never taken for the second half of a pair. *)
Lemma low_escape_ahead_encode_char (c : N) (rest : pystr) :
  c <= 0x10FFFF ->
  is_low_surrogate c = false ->
  low_escape_ahead (encode_char c ++ rest) = false.
Proof.
  intros Hc Hlow. unfold encode_char.
  destruct (S_CHAR c) eqn:Eplain.
  - unfold S_CHAR in Eplain. boolean_tests.
    apply low_escape_ahead_head. assumption.
  - unfold escape_char.
    repeat match goal with
    | |- context [if ?c =? ?k then _ else _] =>
        destruct (c =? k) eqn:?; boolean_tests;
        [subst c; apply low_escape_ahead_second; discriminate|]
    end.
    destruct (0x10000 <=? c) eqn:Ebig; boolean_tests.
    + cbn [app]. rewrite <- app_assoc.
      apply low_escape_ahead_hex.
      * pose proof (high_surrogate_range c ltac:(lia)). lia.
      * apply is_low_surrogate_high.
        pose proof (high_surrogate_range c ltac:(lia)). lia.
    + cbn [app]. apply low_escape_ahead_hex; [lia|assumption].
Qed.

Lemma cons_char_ok (c : N) (str rest : pystr) :
  cons_char c (Ok (str, rest)) = Ok (c :: str, rest).
Proof. reflexivity. Qed.

(** [scanstring] reads back the text that [encode_basestring_ascii] wrote,
    provided the text holds no high surrogate directly before a low one. *)
Lemma scanstring_encoded (m rest : pystr) :
  valid_str m = true ->
  pair_free m = true ->
  scanstring (flat_map encode_char m ++ 34 :: rest) = Ok (m, rest).
Proof.
  induction m as [|c m IH]; intros Hvalid Hfree.
  - reflexivity.
  - cbn [valid_str forallb] in Hvalid. cbn [pair_free] in Hfree.
    boolean_tests.
    cbn [flat_map]. rewrite <- app_assoc.
    rewrite scanstring_encode_char.
    + rewrite IH by assumption. reflexivity.
    + assumption.
    + destruct (flat_map encode_char m); discriminate.
    + intro Hhigh. destruct m as [|c' m].
      * apply low_escape_ahead_quote.
      * cbn [flat_map]. rewrite <- app_assoc.
        cbn [valid_str forallb] in *. boolean_tests.
        apply low_escape_ahead_encode_char; [assumption|].
        rewrite Hhigh in *. cbn in *. assumption.
Qed.

Section Body.
Context {R : PyRuntime}.

Lemma dumps_proxy_data (m : pystr) :
  dumps (proxy_data m) = Ok (body_prefix ++ json_escaped m ++ body_suffix).
Proof.
  unfold dumps, proxy_data, json_escaped.
  cbn [encode traverse bind join]. f_equal.
  unfold encode_basestring_ascii.
  generalize (flat_map encode_char m) as E. intro E.
  repeat (rewrite <- app_assoc || cbn [app]).
  reflexivity.
Qed.

(** An object text whose first member holds any text [E] that scans as
    [m] decodes to the object with message [m]. *)
Lemma loads_object_text (E m : pystr) :
  (forall rest, scanstring (E ++ 34 :: rest) = Ok (m, rest)) ->
  loads (body_prefix ++ E ++ body_suffix) = Ok (proxy_data m).
Proof.
  intros HE. unfold loads, body_prefix, body_suffix.
  cbn [app strip_prefix N.eqb Pos.eqb List.length Nat.mul Nat.add skip_ws is_ws orb].
  cbn. rewrite HE. cbn. reflexivity.
Qed.

(** The handler's response data is read back as it was written. *)
Lemma loads_dumps_proxy_data (m : pystr) :
  valid_str m = true -> pair_free m = true ->
  exists body, dumps (proxy_data m) = Ok body
               /\ loads body = Ok (proxy_data m).
Proof.
  intros Hv Hp. eexists. split; [apply dumps_proxy_data|].
  apply loads_object_text. intro rest.
  apply scanstring_encoded; assumption.
Qed.

End Body.

End JsonFacts.

(** ** Facts about the texts of the statements *)

Module TextFacts.
Import Json JsonFacts.

Lemma json_escaped_app (a b : pystr) :
  json_escaped (a ++ b) = json_escaped a ++ json_escaped b.
Proof. apply flat_map_app. Qed.

(** Printable ASCII other than the quote and the backslash is written as
    it is. *)
Lemma json_escaped_plain (n : pystr) :
  forallb S_CHAR n = true -> json_escaped n = n.
Proof.
  induction n as [|c n IH]; intro H; [reflexivity|].
  cbn [forallb] in H. apply andb_true_iff in H. destruct H as [Hc Hn].
  unfold json_escaped in *. cbn [flat_map]. unfold encode_char at 1.
  rewrite Hc, IH by assumption. reflexivity.
Qed.

Lemma encode_char_length (c : N) :
  (1 <= List.length (encode_char c))%nat
  /\ (S_CHAR c = false -> 2 <= List.length (encode_char c))%nat.
Proof.
  unfold encode_char. destruct (S_CHAR c).
  - split; [apply le_n|discriminate].
  - assert (H : (2 <= List.length (escape_char c))%nat).
    { unfold escape_char.
      repeat match goal with
      | |- context [if ?b then _ else _] => destruct b
      end; cbn [List.length]; lia. }
    split; [lia|intros _; exact H].
Qed.

Lemma json_escaped_length (n : pystr) :
  (List.length n <= List.length (json_escaped n))%nat.
Proof.
  induction n as [|c n IH]; [apply le_n|].
  unfold json_escaped in *. cbn [flat_map]. rewrite length_app.
  pose proof (encode_char_length c) as [H1 _]. cbn [List.length]. lia.
Qed.

(** Any other character changes the text. *)
Lemma json_escaped_plain_inv (n : pystr) :
  json_escaped n = n -> forallb S_CHAR n = true.
Proof.
  intro H. apply (f_equal (@List.length N)) in H.
  induction n as [|c n IH]; [reflexivity|].
  unfold json_escaped in *. cbn [flat_map forallb] in *.
  rewrite length_app in H. cbn [List.length] in H.
  pose proof (encode_char_length c) as [H1 H2].
  pose proof (json_escaped_length n) as H3. unfold json_escaped in H3.
  destruct (S_CHAR c).
  - apply IH. lia.
  - specialize (H2 eq_refl). lia.
Qed.

Lemma json_escaped_message (n : pystr) :
  json_escaped (proxy_message n) = proxy_message (json_escaped n).
Proof.
  unfold proxy_message. rewrite !json_escaped_app. reflexivity.
Qed.

Lemma body_template_parts (n : pystr) :
  body_template n = body_prefix ++ proxy_message n ++ body_suffix.
Proof.
  unfold body_template, quoted.
  generalize (proxy_message n) as m. intro m.
  repeat (rewrite <- app_assoc || cbn [app]).
  reflexivity.
Qed.

(** What the handler's call of [json.dumps] returns. *)
Lemma dumps_message {R : PyRuntime} (n : pystr) :
  dumps (proxy_data (proxy_message n))
  = Ok (body_template (json_escaped n)).
Proof.
  rewrite dumps_proxy_data, json_escaped_message, body_template_parts.
  reflexivity.
Qed.

Lemma valid_str_app (a b : pystr) :
  valid_str (a ++ b) = valid_str a && valid_str b.
Proof. apply forallb_app. Qed.

Lemma pair_free_prefix (pre s : pystr) :
  forallb (fun c => negb (is_high_surrogate c)) pre = true ->
  pair_free (pre ++ s) = pair_free s.
Proof.
  induction pre as [|a pre IH]; intro H; [reflexivity|].
  cbn [forallb] in H. apply andb_true_iff in H. destruct H as [Ha Hpre].
  apply negb_true_iff in Ha.
  cbn [app pair_free]. rewrite Ha, IH by assumption.
  destruct (pre ++ s); reflexivity.
Qed.

Lemma pair_free_suffix (s : pystr) (p : N) (post : pystr) :
  is_low_surrogate p = false ->
  pair_free (p :: post) = true ->
  pair_free (s ++ p :: post) = pair_free s.
Proof.
  intros Hp Hpost. induction s as [|a s IH].
  - exact Hpost.
  - cbn [app pair_free]. rewrite IH.
    destruct s as [|b s]; cbn [app]; [|reflexivity].
    rewrite Hp, andb_false_r. reflexivity.
Qed.

Lemma valid_message (n : pystr) :
  valid_str n = true -> valid_str (proxy_message n) = true.
Proof.
  intro H. unfold proxy_message. rewrite !valid_str_app, H. reflexivity.
Qed.

Lemma pair_free_message (n : pystr) :
  pair_free n = true -> pair_free (proxy_message n) = true.
Proof.
  intro H. unfold proxy_message.
  rewrite pair_free_prefix by reflexivity.
  change (lit "! Your request was successful.")
    with (33 :: lit " Your request was successful.").
  rewrite pair_free_suffix by reflexivity. exact H.
Qed.

(** The body of the proxy handler for a name [n] decodes to the object
    with the message around [n]. *)
Lemma loads_body {R : PyRuntime} (n : pystr) :
  valid_str n = true -> pair_free n = true ->
  loads (body_template (json_escaped n)) = Ok (proxy_data (proxy_message n)).
Proof.
  intros Hv Hp. rewrite body_template_parts, <- json_escaped_message.
  apply loads_object_text. intro rest.
  apply scanstring_encoded;
    [apply valid_message|apply pair_free_message]; assumption.
Qed.

End TextFacts.

(** ** Facts about the handlers *)

Module HandlerFacts.
Import TextFacts.

Section Resolution.

Variable d : list (pystr * pyval).

Lemma resolved_absent :
  dict_get d (lit "queryStringParameters") = None ->
  resolved_name (PDict d) = Ok (PStr (lit "World")).
Proof. intro H. unfold resolved_name, get, bind. rewrite H. reflexivity. Qed.

Lemma resolved_falsy (q : pyval) :
  dict_get d (lit "queryStringParameters") = Some q ->
  truth q = false ->
  resolved_name (PDict d) = Ok (PStr (lit "World")).
Proof.
  intros H Hq. unfold resolved_name, get, bind. rewrite H, Hq. reflexivity.
Qed.

Lemma resolved_named (q : list (pystr * pyval)) (x : pyval) :
  dict_get d (lit "queryStringParameters") = Some (PDict q) ->
  dict_get q (lit "name") = Some x ->
  resolved_name (PDict d) = Ok x.
Proof.
  intros H Hx. unfold resolved_name, get, bind.
  rewrite H, (PyFacts.truth_of_found _ _ _ Hx), Hx. reflexivity.
Qed.

Lemma resolved_unnamed (q : list (pystr * pyval)) :
  dict_get d (lit "queryStringParameters") = Some (PDict q) ->
  dict_get q (lit "name") = None ->
  resolved_name (PDict d) = Ok (PStr (lit "World")).
Proof.
  intros H Hx. unfold resolved_name, get, bind. rewrite H, Hx.
  destruct (truth (PDict q)); reflexivity.
Qed.

Lemma resolved_fault (q : pyval) :
  dict_get d (lit "queryStringParameters") = Some q ->
  truth q = true ->
  is_mapping q = false ->
  resolved_name (PDict d) = Raise AttributeError.
Proof.
  intros H Ht Hm. unfold resolved_name, get, bind. rewrite H, Ht.
  destruct q; try reflexivity. discriminate.
Qed.

End Resolution.

(** Name resolution returns exactly on the events the handler accepts,
    and raises [AttributeError] on the others. *)
Lemma resolved_outcome (event : pyval) :
  match resolved_name event with
  | Ok _ => proxy_accepts event = true
  | Raise e => proxy_accepts event = false /\ e = AttributeError
  end.
Proof.
  destruct event as [| | | | | |d]; try (split; reflexivity).
  unfold proxy_accepts.
  destruct (dict_get d (lit "queryStringParameters")) as [q|] eqn:Hq.
  - destruct (truth q) eqn:Ht.
    + destruct (is_mapping q) eqn:Hm.
      * destruct q as [| | | | | |items]; try discriminate.
        destruct (dict_get items (lit "name")) as [x|] eqn:Hx.
        -- rewrite (resolved_named d items x Hq Hx). reflexivity.
        -- rewrite (resolved_unnamed d items Hq Hx). reflexivity.
      * rewrite (resolved_fault d q Hq Ht Hm). split; reflexivity.
    + rewrite (resolved_falsy d q Hq Ht). reflexivity.
  - rewrite (resolved_absent d Hq). reflexivity.
Qed.

(** With a mapping of parameters, the proxy handler settles on the name
    the plain handler would settle on for that mapping. *)
Lemma resolved_plain_name (d q : list (pystr * pyval)) :
  dict_get d (lit "queryStringParameters") = Some (PDict q) ->
  resolved_name (PDict d) = Ok (plain_name q).
Proof.
  intro Hq. unfold plain_name.
  destruct (dict_get q (lit "name")) as [x|] eqn:Hx.
  - exact (resolved_named d q x Hq Hx).
  - exact (resolved_unnamed d q Hq Hx).
Qed.

(** The event that carries [x] as the name of its query string. *)
Lemma resolved_query (x : pyval) :
  resolved_name
    (PDict [(lit "queryStringParameters", PDict [(lit "name", x)])])
  = Ok x.
Proof. reflexivity. Qed.

Section Handlers.
Context {R : PyRuntime} {Context_ : Type}.

(** The proxy handler is its name resolution, the formatting of the name
    and a response that cannot fail. *)
Lemma proxy_handler_resolved (event : pyval) (context : Context_) :
  HttpGet.lambda_handler event context
  = (name <- resolved_name event ;;
     text <- format name ;;
     Ok (proxy_response (body_template (json_escaped text)))).
Proof.
  assert (Hrest : forall name,
            (text <- format name ;;
             body <- Json.dumps
                       (PDict [(lit "message",
                                PStr (lit "Hello, " ++ text
                                      ++ lit "! Your request was successful."));
                               (lit "status", PStr (lit "success"))]) ;;
             Ok (PDict [(lit "statusCode", PInt 200);
                        (lit "headers",
                         PDict [(lit "Content-Type",
                                 PStr (lit "application/json"))]);
                        (lit "body", PStr body)]))
            = (text <- format name ;;
               Ok (proxy_response (body_template (json_escaped text))))).
  { intro name. destruct (format name) as [text|e]; [|reflexivity].
    cbn [bind]. fold (proxy_message text).
    fold (proxy_data (proxy_message text)).
    rewrite dumps_message. reflexivity. }
  unfold HttpGet.lambda_handler, resolved_name.
  destruct (get event (lit "queryStringParameters") PNone) as [q|e];
    [|reflexivity].
  cbn [bind].
  destruct (truth q).
  - destruct (get q (lit "name") (PStr (lit "World"))) as [name|e];
      [|reflexivity].
    cbn [bind]. apply Hrest.
  - cbn [bind]. apply Hrest.
Qed.

Lemma proxy_handler_of_name (event name : pyval) (text : pystr)
    (context : Context_) :
  resolved_name event = Ok name ->
  format name = Ok text ->
  HttpGet.lambda_handler event context
  = Ok (proxy_response (body_template (json_escaped text))).
Proof.
  intros H Hf. rewrite proxy_handler_resolved, H. cbn [bind].
  rewrite Hf. reflexivity.
Qed.

(** A string name of plain characters is written into the body as it
    is. *)
Lemma proxy_handler_of_plain (event : pyval) (s : pystr)
    (context : Context_) :
  resolved_name event = Ok (PStr s) ->
  forallb Json.S_CHAR s = true ->
  HttpGet.lambda_handler event context
  = Ok (proxy_response (body_template s)).
Proof.
  intros H Hs.
  rewrite (proxy_handler_of_name event (PStr s) s context H eq_refl).
  rewrite (json_escaped_plain s Hs). reflexivity.
Qed.

Lemma proxy_handler_of_error (event name : pyval) (e : pyexc)
    (context : Context_) :
  resolved_name event = Ok name ->
  format name = Raise e ->
  HttpGet.lambda_handler event context = Raise e.
Proof.
  intros H Hf. rewrite proxy_handler_resolved, H. cbn [bind].
  rewrite Hf. reflexivity.
Qed.

(** The plain handler on a mapping is the formatting of its name. *)
Lemma plain_handler_resolved (d : list (pystr * pyval))
    (context : Context_) :
  NonProxy.lambda_handler (PDict d) context
  = (text <- format (plain_name d) ;; Ok (plain_response text)).
Proof.
  unfold NonProxy.lambda_handler, plain_name, get.
  destruct (dict_get d (lit "name")); reflexivity.
Qed.

Lemma plain_handler_found (d : list (pystr * pyval)) (x : pyval)
    (text : pystr) (context : Context_) :
  dict_get d (lit "name") = Some x ->
  format x = Ok text ->
  NonProxy.lambda_handler (PDict d) context = Ok (plain_response text).
Proof.
  intros H Hf. rewrite plain_handler_resolved. unfold plain_name.
  rewrite H, Hf. reflexivity.
Qed.

Lemma plain_handler_absent (d : list (pystr * pyval)) (context : Context_) :
  dict_get d (lit "name") = None ->
  NonProxy.lambda_handler (PDict d) context
  = Ok (plain_response (lit "World")).
Proof.
  intro H. rewrite plain_handler_resolved. unfold plain_name.
  rewrite H. reflexivity.
Qed.

End Handlers.

End HandlerFacts.

(** ** The scanner consumes its text and does not starve *)

Module ScannerFacts.
Import Json.

Local Open Scope nat_scope.

Lemma skip_ws_length (s : pystr) : List.length (skip_ws s) <= List.length s.
Proof.
  induction s as [|c s IH]; [apply le_n|].
  cbn [skip_ws]. destruct (is_ws c); cbn [List.length]; lia.
Qed.

Lemma cons_char_inv (c : N) (r : result (pystr * pystr)) (str rest : pystr) :
  cons_char c r = Ok (str, rest) ->
  exists str', r = Ok (str', rest) /\ str = c :: str'.
Proof.
  destruct r as [[str' rest']|e]; [|discriminate].
  cbn [cons_char]. intro H. injection H as <- <-.
  exists str'. split; reflexivity.
Qed.

(** A successful scan of a string consumes at least its closing quote. *)
Lemma scanstring_length (s str r : pystr) :
  scanstring s = Ok (str, r) -> List.length r < List.length s.
Proof.
  remember (List.length s) as n eqn:Hn.
  assert (Hle : List.length s <= n) by lia. clear Hn.
  revert s str r Hle.
  induction n as [|n IH]; intros s str r Hle H.
  - destruct s; [discriminate|cbn [List.length] in Hle; lia].
  - destruct s as [|c s1]; [discriminate|].
    cbn [scanstring] in H. cbn [List.length] in *.
    repeat (cbv beta match in H;
      match type of H with
      | Raise _ = Ok _ => discriminate H
      | Ok _ = Ok _ => injection H as ? ?; subst
      | context [if ?b then _ else _] => destruct b
      | context [match ?x with [] => _ | _ :: _ => _ end] =>
          is_var x; destruct x
      | context [match hex4 ?a ?b ?c ?d with Some _ => _ | None => _ end] =>
          destruct (hex4 a b c d)
      | context [match unescape ?e with Some _ => _ | None => _ end] =>
          destruct (unescape e)
      | cons_char _ (scanstring ?t) = Ok _ =>
          apply cons_char_inv in H; destruct H as (? & H & ?);
          apply IH in H; [|cbn [List.length] in *; lia]
      end);
    cbn [List.length] in *; lia.
Qed.

Lemma strip_prefix_length (p s r : pystr) :
  strip_prefix p s = Some r -> List.length s = List.length p + List.length r.
Proof.
  revert s. induction p as [|a p IH]; intros s H.
  - injection H as ->. reflexivity.
  - destruct s as [|b s]; [discriminate|].
    cbn [strip_prefix] in H. destruct (a =? b)%N; [|discriminate].
    cbn [List.length]. rewrite (IH s H). reflexivity.
Qed.

Lemma span_digits_length (s ds r : pystr) :
  span_digits s = (ds, r) -> List.length r <= List.length s.
Proof.
  revert ds r. induction s as [|c s IH]; intros ds r H.
  - injection H as <- <-. apply le_n.
  - cbn [span_digits] in H. destruct (is_digit c).
    + destruct (span_digits s) as [ds' r'] eqn:E.
      injection H as <- <-. specialize (IH _ _ eq_refl).
      cbn [List.length]. lia.
    + injection H as <- <-. apply le_n.
Qed.

Section Numbers.
Context {R : PyRuntime}.

Lemma match_fraction_length (s f r : pystr) :
  match_fraction s = (f, r) -> List.length r <= List.length s.
Proof.
  unfold match_fraction. intro H.
  destruct s as [|dot [|d s]]; try (injection H as <- <-; apply le_n).
  destruct ((dot =? 46)%N && is_digit d)%bool;
    [|injection H as <- <-; apply le_n].
  destruct (span_digits s) as [ds r'] eqn:E. injection H as <- <-.
  apply span_digits_length in E. cbn [List.length]. lia.
Qed.

Lemma match_exponent_length (s x r : pystr) :
  match_exponent s = (x, r) -> List.length r <= List.length s.
Proof.
  unfold match_exponent. intro H.
  destruct s as [|e s]; [injection H as <- <-; apply le_n|].
  destruct ((e =? 101)%N || (e =? 69)%N)%bool;
    [|injection H as <- <-; apply le_n].
  assert (Hsign : forall sign s'',
            match s with
            | g :: t =>
                if ((g =? 45)%N || (g =? 43)%N)%bool
                then ([g], t) else ([], s)
            | [] => ([], s)
            end = (sign, s'') -> List.length s'' <= List.length s).
  { intros sign s'' Hs. destruct s as [|g t].
    - injection Hs as <- <-. apply le_n.
    - destruct ((g =? 45)%N || (g =? 43)%N)%bool;
        injection Hs as <- <-; cbn [List.length]; lia. }
  destruct (match s with
            | g :: t =>
                if ((g =? 45)%N || (g =? 43)%N)%bool
                then ([g], t) else ([], s)
            | [] => ([], s)
            end) as [sign s''] eqn:Es.
  specialize (Hsign _ _ eq_refl).
  destruct (span_digits s'') as [ds r'] eqn:E.
  apply span_digits_length in E.
  destruct ds; injection H as <- <-; cbn [List.length]; lia.
Qed.

(** A number has at least one digit. *)
Lemma match_number_length (s : pystr) (v : pyval) (r : pystr) :
  match_number s = Ok (v, r) -> List.length r < List.length s.
Proof.
  unfold match_number. intro H.
  destruct (match s with
            | c :: s' => if (c =? 45)%N then ([c], s') else ([], s)
            | [] => ([], s)
            end) as [sign s1] eqn:Es.
  assert (Hs1 : List.length s1 <= List.length s).
  { destruct s as [|c s'].
    - injection Es as <- <-. apply le_n.
    - destruct (c =? 45)%N; injection Es as <- <-; cbn [List.length]; lia. }
  destruct s1 as [|c s2]; [discriminate|].
  cbn [List.length] in Hs1.
  destruct ((49 <=? c)%N && (c <=? 57)%N)%bool.
  - destruct (span_digits s2) as [ds t] eqn:E.
    destruct (match_fraction t) as [frac r1] eqn:Ef.
    destruct (match_exponent r1) as [exp r2] eqn:Ee.
    apply span_digits_length in E.
    apply match_fraction_length in Ef. apply match_exponent_length in Ee.
    destruct (frac ++ exp);
      [destruct (exceeds_digit_limit _ _); [discriminate|]|];
      injection H as <- <-; lia.
  - destruct (c =? 48)%N; [|discriminate].
    destruct (match_fraction s2) as [frac r1] eqn:Ef.
    destruct (match_exponent r1) as [exp r2] eqn:Ee.
    apply match_fraction_length in Ef. apply match_exponent_length in Ee.
    destruct (frac ++ exp);
      [destruct (exceeds_digit_limit _ _); [discriminate|]|];
      injection H as <- <-; lia.
Qed.

Lemma match_constant_length (s : pystr) (v : pyval) (r : pystr) :
  match_constant s = Some (v, r) -> List.length r < List.length s.
Proof.
  unfold match_constant. intro H.
  repeat match type of H with
  | context [match strip_prefix ?p s with Some _ => _ | None => _ end] =>
      let E := fresh "E" in
      destruct (strip_prefix p s) eqn:E;
      [injection H as <- <-; apply strip_prefix_length in E;
       cbn [List.length lit map list_ascii_of_string] in E; lia|]
  end.
  discriminate.
Qed.

End Numbers.

Section Fuel.
Context {R : PyRuntime}.

Lemma progresses_fail (s : pystr) (e : pyexc) : progresses (Some (Raise e)) s.
Proof. eexists. split; [reflexivity|discriminate]. Qed.

Lemma progresses_done (s : pystr) (v : pyval) (r : pystr) :
  List.length r < List.length s -> progresses (Some (Ok (v, r))) s.
Proof.
  intro H. eexists. split; [reflexivity|].
  intros v' r' Heq. injection Heq as <- <-. exact H.
Qed.

Lemma progresses_weaken (res : option (result (pyval * pystr)))
    (t s : pystr) :
  List.length t <= List.length s -> progresses res t -> progresses res s.
Proof.
  intros Hle (out & -> & Hout). exists out. split; [reflexivity|].
  intros v r Heq. specialize (Hout v r Heq). lia.
Qed.

Lemma scan_fuel (fuel : nat) :
  (forall depth s,
     2 * List.length s < fuel -> progresses (scan_once fuel depth s) s)
  /\ (forall depth s acc,
        2 * List.length s < fuel -> progresses (members fuel depth s acc) s)
  /\ (forall depth s acc,
        2 * List.length s + 1 < fuel ->
        progresses (elements fuel depth s acc) s).
Proof.
  induction fuel as [|fuel (IHscan & IHmembers & IHelements)].
  - repeat split; intros; lia.
  - split; [|split].
    + (* scan_once *)
      intros depth s Hfuel. destruct s as [|c s1]; [apply progresses_fail|].
      cbn [scan_once]. cbn [List.length] in Hfuel.
      destruct (c =? 34)%N.
      { destruct (scanstring s1) as [[str r]|e] eqn:E;
          [|apply progresses_fail].
        apply scanstring_length in E.
        apply progresses_done. cbn [List.length]. lia. }
      destruct (c =? 123)%N.
      { destruct depth as [|depth']; [apply progresses_fail|].
        pose proof (skip_ws_length s1) as Hws.
        destruct (skip_ws s1) as [|c2 s2]; [apply progresses_fail|].
        cbn [List.length] in Hws.
        destruct (c2 =? 125)%N.
        - apply progresses_done. cbn [List.length]. lia.
        - apply (progresses_weaken _ (c2 :: s2));
            [cbn [List.length]; lia|].
          apply IHmembers. cbn [List.length]. lia. }
      destruct (c =? 91)%N.
      { destruct depth as [|depth']; [apply progresses_fail|].
        pose proof (skip_ws_length s1) as Hws.
        destruct (skip_ws s1) as [|c2 s2]; [apply progresses_fail|].
        cbn [List.length] in Hws.
        destruct (c2 =? 93)%N.
        - apply progresses_done. cbn [List.length]. lia.
        - apply (progresses_weaken _ (c2 :: s2));
            [cbn [List.length]; lia|].
          apply IHelements. cbn [List.length]. lia. }
      destruct (match_constant (c :: s1)) as [[v r]|] eqn:E.
      { apply match_constant_length in E. apply progresses_done. exact E. }
      destruct (match_number (c :: s1)) as [[v r]|e] eqn:En;
        [|apply progresses_fail].
      apply match_number_length in En. apply progresses_done. exact En.
    + (* members *)
      intros depth s acc Hfuel.
      destruct s as [|c s1]; [apply progresses_fail|].
      cbn [members]. cbn [List.length] in Hfuel.
      destruct (c =? 34)%N; [|apply progresses_fail].
      destruct (scanstring s1) as [[key s2]|e] eqn:E;
        [|apply progresses_fail].
      apply scanstring_length in E.
      pose proof (skip_ws_length s2) as Hws2.
      destruct (skip_ws s2) as [|c2 s3]; [apply progresses_fail|].
      cbn [List.length] in Hws2.
      destruct (c2 =? 58)%N; [|apply progresses_fail].
      pose proof (skip_ws_length s3) as Hws3.
      destruct (IHscan depth (skip_ws s3) ltac:(lia)) as (out & -> & Hout).
      destruct out as [[v s4]|e]; [|apply progresses_fail].
      specialize (Hout v s4 eq_refl).
      pose proof (skip_ws_length s4) as Hws4.
      destruct (skip_ws s4) as [|c3 s5]; [apply progresses_fail|].
      cbn [List.length] in Hws4.
      destruct (c3 =? 125)%N.
      { apply progresses_done. cbn [List.length]. lia. }
      destruct (c3 =? 44)%N; [|apply progresses_fail].
      pose proof (skip_ws_length s5) as Hws5.
      apply (progresses_weaken _ (skip_ws s5)); [cbn [List.length]; lia|].
      apply IHmembers. lia.
    + (* elements *)
      intros depth s acc Hfuel. cbn [elements].
      destruct (IHscan depth s ltac:(lia)) as (out & -> & Hout).
      destruct out as [[v s1]|e]; [|apply progresses_fail].
      specialize (Hout v s1 eq_refl).
      pose proof (skip_ws_length s1) as Hws1.
      destruct (skip_ws s1) as [|c s2]; [apply progresses_fail|].
      cbn [List.length] in Hws1.
      destruct (c =? 93)%N.
      { apply progresses_done. lia. }
      destruct (c =? 44)%N; [|apply progresses_fail].
      pose proof (skip_ws_length s2) as Hws2.
      apply (progresses_weaken _ (skip_ws s2)); [lia|].
      apply IHelements. lia.
Qed.

(** With the fuel [loads] gives it, the scanner does not starve. *)
Lemma scan_once_fuel (depth : nat) (s : pystr) :
  scan_once (S (2 * List.length s)) depth (skip_ws s) <> None.
Proof.
  pose proof (skip_ws_length s) as Hws.
  destruct (scan_fuel (S (2 * List.length s))) as (Hscan & _ & _).
  destruct (Hscan depth (skip_ws s) ltac:(lia)) as (out & -> & _).
  discriminate.
Qed.

End Fuel.
End ScannerFacts.

(** ** The scenarios of the specification *)

Module Scenarios.
Import TextFacts HandlerFacts.

Section Runs.
Context {R : PyRuntime}.

(** Scenario 1: the proxy handler on the empty event. *)
Example scenario_1 :
  HttpGet.lambda_handler (PDict []) tt
  = Ok (proxy_response (body_template (lit "World")))
  /\ Json.loads (body_template (lit "World"))
     = Ok (proxy_data (lit "Hello, World! Your request was successful.")).
Proof.
  split.
  - apply proxy_handler_of_plain; reflexivity.
  - apply (loads_body (lit "World")); reflexivity.
Qed.

(** Scenario 2: the proxy handler on a query that names Ada. *)
Example scenario_2 :
  HttpGet.lambda_handler ada_query tt
  = Ok (proxy_response (body_template (lit "Ada")))
  /\ Json.loads (body_template (lit "Ada"))
     = Ok (proxy_data (lit "Hello, Ada! Your request was successful.")).
Proof.
  split.
  - apply proxy_handler_of_plain; reflexivity.
  - apply (loads_body (lit "Ada")); reflexivity.
Qed.

(** Scenario 3: the plain handler on an event that names Ada. *)
Example scenario_3 :
  NonProxy.lambda_handler (PDict [(lit "name", PStr (lit "Ada"))]) tt
  = Ok (PDict [(lit "greeting", PStr (lit "Hello from non-proxy, Ada!"))]).
Proof. reflexivity. Qed.

(** Scenario 4: the plain handler on the empty event. *)
Example scenario_4 :
  NonProxy.lambda_handler (PDict []) tt
  = Ok (PDict [(lit "greeting", PStr (lit "Hello from non-proxy, World!"))]).
Proof. reflexivity. Qed.

(** An event that is not a mapping has no [get]: both handlers fault on
    their first statement. *)
Lemma non_mapping_event_faults (event : pyval) :
  is_mapping event = false ->
  HttpGet.lambda_handler event tt = Raise AttributeError
  /\ NonProxy.lambda_handler event tt = Raise AttributeError.
Proof.
  intro H. destruct event; try discriminate; split; reflexivity.
Qed.

End Runs.
End Scenarios.

(** ** The properties of the handlers *)

Import Json JsonFacts TextFacts HandlerFacts.

(** C1, as amended.  For every event whose queryStringParameters entry
    is a mapping holding a string X under name, where no high surrogate of
    X is directly followed by a low surrogate: the proxy handler returns
    its envelope, and the body, decoded by json.loads, is the object whose
    message is Hello, X! Your request was successful. (X as it is: not
    trimmed, not escaped, of any length) and whose status is success. *)
Theorem C1_proxy_body_decodes {R : PyRuntime} {Context_ : Type}
    (d q : list (pystr * pyval)) (X : pystr) (context : Context_) :
  dict_get d (lit "queryStringParameters") = Some (PDict q) ->
  dict_get q (lit "name") = Some (PStr X) ->
  valid_str X = true ->
  pair_free X = true ->
  exists body,
    HttpGet.lambda_handler (PDict d) context = Ok (proxy_response body)
    /\ loads body
       = Ok (PDict [(lit "message",
                     PStr (lit "Hello, " ++ X
                           ++ lit "! Your request was successful."));
                    (lit "status", PStr (lit "success"))]).
Proof.
  intros Hq Hname Hvalid Hfree.
  exists (body_template (json_escaped X)). split.
  - apply (proxy_handler_of_name _ (PStr X) X); [|reflexivity].
    eapply resolved_named; eassumption.
  - apply loads_body; assumption.
Qed.

(** C1 at the event of the second scenario: the name Ada. *)
Lemma C1_witness :
  let q := [(lit "name", PStr (lit "Ada"))] in
  let d := [(lit "queryStringParameters", PDict q)] in
  dict_get d (lit "queryStringParameters") = Some (PDict q)
  /\ dict_get q (lit "name") = Some (PStr (lit "Ada"))
  /\ valid_str (lit "Ada") = true
  /\ pair_free (lit "Ada") = true
  /\ forall R : PyRuntime,
     exists body,
       HttpGet.lambda_handler (PDict d) tt = Ok (proxy_response body)
       /\ loads body
          = Ok (PDict [(lit "message",
                        PStr (lit "Hello, Ada! Your request was successful."));
                       (lit "status", PStr (lit "success"))]).
Proof.
  intros q d.
  split; [reflexivity|]. split; [reflexivity|].
  split; [reflexivity|]. split; [reflexivity|].
  intro R.
  apply (C1_proxy_body_decodes d q (lit "Ada") tt); reflexivity.
Defined.

(** C1 as first stated fails for a name made of a high surrogate and a
    low surrogate: json.dumps writes two escapes, json.loads reads them as
    the one code point U+1F600. *)
Lemma C1_counterexample :
  exists X event,
    X = [0xD83D; 0xDE00]
    /\ event = PDict [(lit "queryStringParameters",
                       PDict [(lit "name", PStr X)])]
    /\ forall R : PyRuntime,
       exists body,
         HttpGet.lambda_handler event tt = Ok (proxy_response body)
         /\ loads body = Ok (proxy_data (proxy_message [0x1F600]))
         /\ proxy_data (proxy_message [0x1F600])
            <> proxy_data (proxy_message X).
Proof.
  eexists. eexists. split; [reflexivity|]. split; [reflexivity|].
  intro R. exists (body_template (json_escaped [0xD83D; 0xDE00])). split.
  - apply (proxy_handler_of_name _ (PStr [0xD83D; 0xDE00])
             [0xD83D; 0xDE00]); reflexivity.
  - split.
    + vm_compute. reflexivity.
    + vm_compute. discriminate.
Qed.

(** C2.  An event without the name field is greeted as World.  Proxy
    handler: the event has no queryStringParameters entry, or that entry
    is a mapping without name; the body is the template around World and
    decodes to the message Hello, World! Your request was successful.
    Plain handler: the event has no name entry; the greeting is
    Hello from non-proxy, World!  Both texts contain World. *)
Theorem C2_default_name_is_World {R : PyRuntime} {Context_ : Type}
    (d : list (pystr * pyval)) (context : Context_) :
  ((dict_get d (lit "queryStringParameters") = None
    \/ exists q, dict_get d (lit "queryStringParameters") = Some (PDict q)
                 /\ dict_get q (lit "name") = None) ->
   HttpGet.lambda_handler (PDict d) context
   = Ok (proxy_response (body_template (lit "World")))
   /\ loads (body_template (lit "World"))
      = Ok (proxy_data (lit "Hello, World! Your request was successful."))
   /\ contains (lit "World")
        (lit "Hello, World! Your request was successful."))
  /\ (dict_get d (lit "name") = None ->
      NonProxy.lambda_handler (PDict d) context
      = Ok (PDict [(lit "greeting", PStr (lit "Hello from non-proxy, World!"))])
      /\ contains (lit "World") (lit "Hello from non-proxy, World!")).
Proof.
  split.
  - intro H.
    assert (Hname : resolved_name (PDict d) = Ok (PStr (lit "World"))).
    { destruct H as [H|[q [Hq Hn]]].
      - apply resolved_absent. exact H.
      - eapply resolved_unnamed; eassumption. }
    split; [|split].
    + apply proxy_handler_of_plain; [exact Hname|reflexivity].
    + apply (loads_body (lit "World")); reflexivity.
    + exists (lit "Hello, "), (lit "! Your request was successful.").
      reflexivity.
  - intro H. split.
    + apply plain_handler_absent. exact H.
    + exists (lit "Hello from non-proxy, "), (lit "!"). reflexivity.
Qed.

(** C2 at the empty event (the first and the fourth scenario). *)
Lemma C2_witness :
  dict_get [] (lit "queryStringParameters") = None
  /\ dict_get [] (lit "name") = None
  /\ forall R : PyRuntime,
     HttpGet.lambda_handler (PDict []) tt
     = Ok (proxy_response (body_template (lit "World")))
     /\ NonProxy.lambda_handler (PDict []) tt
        = Ok (PDict [(lit "greeting",
                      PStr (lit "Hello from non-proxy, World!"))]).
Proof.
  split; [reflexivity|]. split; [reflexivity|].
  intro R.
  destruct (@C2_default_name_is_World R unit [] tt) as [Hproxy Hplain].
  split.
  - apply Hproxy. left. reflexivity.
  - apply Hplain. reflexivity.
Defined.

(** C3.  For every event with a value X under the top-level key name,
    the plain handler returns exactly the one-key mapping whose greeting
    is Hello from non-proxy, X! -- X itself when it is a string, and in
    general the text that str(X) gives; for a value of another type that
    str refuses (see C9 and C10) the handler raises what str raises. *)
Theorem C3_plain_greets_name {R : PyRuntime} {Context_ : Type}
    (d : list (pystr * pyval)) (X : pyval) (context : Context_) :
  dict_get d (lit "name") = Some X ->
  (forall n, str X = Ok n ->
     NonProxy.lambda_handler (PDict d) context
     = Ok (PDict [(lit "greeting",
                   PStr (lit "Hello from non-proxy, " ++ n ++ lit "!"))]))
  /\ (forall s, X = PStr s ->
        NonProxy.lambda_handler (PDict d) context
        = Ok (PDict [(lit "greeting",
                      PStr (lit "Hello from non-proxy, " ++ s ++ lit "!"))]))
  /\ (forall e, str X = Raise e ->
        is_str X = false
        /\ NonProxy.lambda_handler (PDict d) context = Raise e).
Proof.
  intro H. split; [|split].
  - intros n Hn. exact (plain_handler_found d X n context H Hn).
  - intros s ->. exact (plain_handler_found d (PStr s) s context H eq_refl).
  - intros e He. split.
    + destruct X; try reflexivity. discriminate.
    + rewrite plain_handler_resolved. unfold plain_name, format.
      rewrite H, He. reflexivity.
Qed.

(** C3 at the event of the third scenario: the name Ada. *)
Lemma C3_witness :
  dict_get [(lit "name", PStr (lit "Ada"))] (lit "name")
  = Some (PStr (lit "Ada"))
  /\ forall R : PyRuntime,
     NonProxy.lambda_handler (PDict [(lit "name", PStr (lit "Ada"))]) tt
     = Ok (PDict [(lit "greeting", PStr (lit "Hello from non-proxy, Ada!"))]).
Proof.
  split; [reflexivity|]. intro R.
  exact (proj1 (@C3_plain_greets_name R unit
                  [(lit "name", PStr (lit "Ada"))] (PStr (lit "Ada")) tt
                  eq_refl) (lit "Ada") eq_refl).
Defined.

(** C4.  Whenever the proxy handler returns, whatever the event, the
    response has statusCode 200 and headers exactly the one-entry mapping
    Content-Type: application/json; only the body varies. *)
Theorem C4_status_and_headers_fixed {R : PyRuntime} {Context_ : Type}
    (event : pyval) (context : Context_) (r : pyval) :
  HttpGet.lambda_handler event context = Ok r ->
  field r (lit "statusCode") = Some (PInt 200)
  /\ field r (lit "headers")
     = Some (PDict [(lit "Content-Type", PStr (lit "application/json"))])
  /\ exists body, r = proxy_response body.
Proof.
  rewrite proxy_handler_resolved.
  destruct (resolved_name event) as [name|e]; [|discriminate].
  cbn [bind]. destruct (format name) as [text|e]; [|discriminate].
  cbn [bind]. intro H. injection H as <-.
  split; [reflexivity|]. split; [reflexivity|].
  eexists. reflexivity.
Qed.

(** C4 at the empty event. *)
Lemma C4_witness :
  exists r,
    r = proxy_response (body_template (lit "World"))
    /\ forall R : PyRuntime,
       HttpGet.lambda_handler (PDict []) tt = Ok r
       /\ field r (lit "statusCode") = Some (PInt 200)
       /\ field r (lit "headers")
          = Some (PDict [(lit "Content-Type", PStr (lit "application/json"))]).
Proof.
  eexists. split; [reflexivity|]. intro R.
  assert (H : HttpGet.lambda_handler (PDict []) tt
              = Ok (proxy_response (body_template (lit "World")))).
  { apply proxy_handler_of_plain; reflexivity. }
  split; [exact H|].
  destruct (@C4_status_and_headers_fixed R unit (PDict []) tt _ H)
    as (Hstatus & Hheaders & _).
  split; assumption.
Defined.

(** C5, as amended.  For a resolved name that formatting turns into
    the text N, the body of the proxy handler
    is the template of the specification -- message before status, a
    space after each colon and after the comma -- around N as json.dumps
    escapes it: the quote, the backslash and the control characters behind
    a backslash, every code point outside printable ASCII as a \u escape.
    The escaped text is N itself exactly when N is made of printable ASCII
    characters other than the quote and the backslash. *)
Theorem C5_body_text {R : PyRuntime} {Context_ : Type}
    (event name : pyval) (N : pystr) (context : Context_) :
  resolved_name event = Ok name ->
  format name = Ok N ->
  HttpGet.lambda_handler event context
  = Ok (proxy_response (body_template (json_escaped N)))
  /\ (json_escaped N = N <-> forallb S_CHAR N = true).
Proof.
  intros H Hf. split.
  - exact (proxy_handler_of_name event name N context H Hf).
  - split; [apply json_escaped_plain_inv|apply json_escaped_plain].
Qed.

(** C5 at the event of the second scenario: the name Ada is written as
    it is. *)
Lemma C5_witness :
  let event := PDict [(lit "queryStringParameters",
                       PDict [(lit "name", PStr (lit "Ada"))])] in
  resolved_name event = Ok (PStr (lit "Ada"))
  /\ forall R : PyRuntime,
     format (PStr (lit "Ada")) = Ok (lit "Ada")
     /\ HttpGet.lambda_handler event tt
        = Ok (proxy_response (body_template (lit "Ada"))).
Proof.
  intro event. split; [reflexivity|]. intro R. split; [reflexivity|].
  exact (proj1 (@C5_body_text R unit event (PStr (lit "Ada")) (lit "Ada") tt
                  eq_refl eq_refl)).
Defined.

(** C5 as first stated fails for a name that holds a double quote: the
    body has the quote behind a backslash, the template of the
    specification has it bare. *)
Lemma C5_counterexample :
  exists event,
    event = PDict [(lit "queryStringParameters",
                    PDict [(lit "name", PStr [34])])]
    /\ resolved_name event = Ok (PStr [34])
    /\ forall R : PyRuntime,
       HttpGet.lambda_handler event tt
       = Ok (proxy_response (body_template [92; 34]))
       /\ body_template [92; 34] <> body_template [34].
Proof.
  eexists. split; [reflexivity|]. split; [reflexivity|].
  intro R. split.
  - apply (proxy_handler_of_name _ (PStr [34]) [34]); reflexivity.
  - vm_compute. discriminate.
Qed.

(** C6, as amended.  For every event whose queryStringParameters value
    is present, true in a condition and not a mapping (a non-empty string
    or list, a non-zero number, True), the proxy handler returns no
    response: the call of get on that value raises AttributeError, which
    the handler neither catches nor translates. *)
Theorem C6_truthy_non_mapping_faults {R : PyRuntime} {Context_ : Type}
    (d : list (pystr * pyval)) (q : pyval) (context : Context_) :
  dict_get d (lit "queryStringParameters") = Some q ->
  truth q = true ->
  is_mapping q = false ->
  HttpGet.lambda_handler (PDict d) context = Raise AttributeError.
Proof.
  intros Hq Ht Hm.
  rewrite proxy_handler_resolved, (resolved_fault d q Hq Ht Hm).
  reflexivity.
Qed.

(** C6 at an event that carries the raw query string. *)
Lemma C6_witness :
  let q := PStr (lit "name=Ada") in
  let d := [(lit "queryStringParameters", q)] in
  dict_get d (lit "queryStringParameters") = Some q
  /\ truth q = true
  /\ is_mapping q = false
  /\ forall R : PyRuntime,
     HttpGet.lambda_handler (PDict d) tt = Raise AttributeError.
Proof.
  intros q d.
  split; [reflexivity|]. split; [reflexivity|]. split; [reflexivity|].
  intro R.
  apply (@C6_truthy_non_mapping_faults R unit d q tt); reflexivity.
Defined.

(** C6 as first stated fails for a value that is present, not a mapping
    and false in a condition: with None under queryStringParameters the
    guard skips the look-up and the handler answers for World. *)
Lemma C6_counterexample :
  exists event,
    event = PDict [(lit "queryStringParameters", PNone)]
    /\ field event (lit "queryStringParameters") = Some PNone
    /\ is_mapping PNone = false
    /\ forall R : PyRuntime,
       HttpGet.lambda_handler event tt
       = Ok (proxy_response (body_template (lit "World"))).
Proof.
  eexists. split; [reflexivity|]. split; [reflexivity|].
  split; [reflexivity|].
  intro R. apply proxy_handler_of_plain; reflexivity.
Qed.

(** C7.  Both handlers are functions of the event alone: two calls with
    the same event return the same result whatever the two context
    values, of whatever types, are. *)
Theorem C7_context_is_ignored {R : PyRuntime} (A B : Type)
    (event : pyval) (a : A) (b : B) :
  HttpGet.lambda_handler event a = HttpGet.lambda_handler event b
  /\ NonProxy.lambda_handler event a = NonProxy.lambda_handler event b.
Proof. split; reflexivity. Qed.

(** C8.  For every event whose queryStringParameters entry is present
    but false in a condition, the proxy handler does not fault: the guard
    skips the look-up of name, and the handler returns its envelope with
    the body for World. *)
Theorem C8_falsy_parameters_default {R : PyRuntime} {Context_ : Type}
    (d : list (pystr * pyval)) (q : pyval) (context : Context_) :
  dict_get d (lit "queryStringParameters") = Some q ->
  truth q = false ->
  HttpGet.lambda_handler (PDict d) context
  = Ok (proxy_response (body_template (lit "World"))).
Proof.
  intros Hq Ht.
  apply proxy_handler_of_plain; [|reflexivity].
  eapply resolved_falsy; eassumption.
Qed.

(** C8 at the four values the claim names: an empty mapping, None, an
    empty string and 0. *)
Lemma C8_witness :
  let falsy := [PDict []; PNone; PStr []; PInt 0] in
  forallb (fun q => negb (truth q)) falsy = true
  /\ forall R : PyRuntime,
     Forall (fun q =>
               HttpGet.lambda_handler
                 (PDict [(lit "queryStringParameters", q)]) tt
               = Ok (proxy_response (body_template (lit "World"))))
       falsy.
Proof.
  intro falsy. split; [reflexivity|]. intro R.
  repeat (apply Forall_cons
          || apply Forall_nil
          || (eapply (@C8_falsy_parameters_default R unit); reflexivity)).
Defined.

(** C9, as amended.  For every event with a value X under the name key
    that is not a string (a number, None, a list, ...), the handlers
    format X with repr.  When repr can print X -- every int in X within
    the digit cap of the conversion to text, X nested no deeper than the
    recursion limit allows -- both handlers succeed and the greeting holds
    repr(X): the proxy handler serialises the message
    Hello, repr(X)! Your request was successful., the plain handler greets
    Hello from non-proxy, repr(X)!  When repr cannot print X, both
    handlers raise what repr raises, a ValueError or a RecursionError;
    the formatting step raises no error of any other kind. *)
Theorem C9_non_string_name_is_formatted {R : PyRuntime} {Context_ : Type}
    (X : pyval) (context : Context_) :
  is_str X = false ->
  (formattable X = true ->
   exists n,
     repr (S recursion_room) X = Ok n
     /\ (forall d q,
           dict_get d (lit "queryStringParameters") = Some (PDict q) ->
           dict_get q (lit "name") = Some X ->
           exists body,
             dumps (proxy_data
                      (lit "Hello, " ++ n
                       ++ lit "! Your request was successful.")) = Ok body
             /\ HttpGet.lambda_handler (PDict d) context
                = Ok (proxy_response body))
     /\ (forall d,
           dict_get d (lit "name") = Some X ->
           NonProxy.lambda_handler (PDict d) context
           = Ok (PDict [(lit "greeting",
                         PStr (lit "Hello from non-proxy, " ++ n
                               ++ lit "!"))])))
  /\ (formattable X = false ->
      exists e,
        (e = ValueError \/ e = RecursionError)
        /\ repr (S recursion_room) X = Raise e
        /\ (forall d q,
              dict_get d (lit "queryStringParameters") = Some (PDict q) ->
              dict_get q (lit "name") = Some X ->
              HttpGet.lambda_handler (PDict d) context = Raise e)
        /\ (forall d,
              dict_get d (lit "name") = Some X ->
              NonProxy.lambda_handler (PDict d) context = Raise e)).
Proof.
  intro HX. pose proof (PyFacts.format_non_str X HX) as Hrepr. split.
  - intro Hf. destruct (PyFacts.format_formattable X Hf) as [n Hn].
    exists n. split; [rewrite <- Hrepr; exact Hn|]. split.
    + intros d q Hq Hname. exists (body_template (json_escaped n)). split.
      * apply (dumps_message n).
      * exact (proxy_handler_of_name _ X n context
                 (resolved_named d q X Hq Hname) Hn).
    + intros d Hname. exact (plain_handler_found d X n context Hname Hn).
  - intro Hf. destruct (PyFacts.format_unformattable X Hf) as (e & He & Herr).
    exists e. split; [exact Herr|]. split; [rewrite <- Hrepr; exact He|].
    split.
    + intros d q Hq Hname.
      exact (proxy_handler_of_error _ X e context
               (resolved_named d q X Hq Hname) He).
    + intros d Hname. rewrite plain_handler_resolved. unfold plain_name.
      rewrite Hname, He. reflexivity.
Qed.

(** C9 at the name 42. *)
Lemma C9_witness :
  let X := PInt 42 in
  let q := [(lit "name", X)] in
  let d := [(lit "queryStringParameters", PDict q)] in
  is_str X = false
  /\ dict_get d (lit "queryStringParameters") = Some (PDict q)
  /\ dict_get q (lit "name") = Some X
  /\ forall R : PyRuntime,
     formattable X = true
     /\ exists n,
          repr (S recursion_room) X = Ok n
          /\ n = lit "42"
          /\ NonProxy.lambda_handler (PDict q) tt
             = Ok (PDict [(lit "greeting",
                           PStr (lit "Hello from non-proxy, " ++ n
                                 ++ lit "!"))])
          /\ exists body,
               dumps (proxy_data
                        (lit "Hello, " ++ n
                         ++ lit "! Your request was successful.")) = Ok body
               /\ HttpGet.lambda_handler (PDict d) tt
                  = Ok (proxy_response body).
Proof.
  intros X q d.
  split; [reflexivity|]. split; [reflexivity|]. split; [reflexivity|].
  intro R. split; [reflexivity|].
  destruct (proj1 (@C9_non_string_name_is_formatted R unit X tt eq_refl)
              eq_refl)
    as (n & Hn & Hproxy & Hplain).
  exists n. split; [exact Hn|]. split.
  - assert (H42 : repr (S recursion_room) X = Ok (lit "42"))
      by reflexivity.
    congruence.
  - split; [exact (Hplain q eq_refl)|exact (Hproxy d q eq_refl eq_refl)].
Defined.

(** C9 as first stated fails for a name that repr cannot print.  Under
    the default digit cap of 4300 the int 10 ** 4300, of 4301 digits, makes
    both handlers raise ValueError; and whatever the recursion limit is, a
    list nested deeper than it allows makes both raise RecursionError. *)
Lemma C9_counterexample :
  (exists X,
     X = PInt (10 ^ 4300)
     /\ is_str X = false
     /\ forall R : PyRuntime,
        int_max_str_digits = 4300 ->
        HttpGet.lambda_handler
          (PDict [(lit "queryStringParameters", PDict [(lit "name", X)])]) tt
        = Raise ValueError
        /\ NonProxy.lambda_handler (PDict [(lit "name", X)]) tt
           = Raise ValueError)
  /\ forall R : PyRuntime,
     exists X,
       X = nested (S recursion_room)
       /\ is_str X = false
       /\ HttpGet.lambda_handler
            (PDict [(lit "queryStringParameters", PDict [(lit "name", X)])]) tt
          = Raise RecursionError
       /\ NonProxy.lambda_handler (PDict [(lit "name", X)]) tt
          = Raise RecursionError.
Proof.
  split.
  - eexists. split; [reflexivity|]. split; [reflexivity|].
    intros R Hcap. pose proof (PyFacts.format_over_cap Hcap) as Hf. split.
    + exact (proxy_handler_of_error _ _ _ tt (resolved_query _) Hf).
    + rewrite plain_handler_resolved.
      change (plain_name [(lit "name", PInt (10 ^ 4300))])
        with (PInt (10 ^ 4300)).
      rewrite Hf. reflexivity.
  - intro R. eexists. split; [reflexivity|]. split; [reflexivity|].
    pose proof PyFacts.format_nested as Hf. split.
    + exact (proxy_handler_of_error _ _ _ tt (resolved_query _) Hf).
    + rewrite plain_handler_resolved.
      change (plain_name [(lit "name", nested (S recursion_room))])
        with (nested (S recursion_room)).
      rewrite Hf. reflexivity.
Qed.

(** C10, as amended.  On an event that is a mapping the plain handler
    does one of two things, decided by the name it settles on (the value
    under name, World without one).  When that name can be formatted -- it
    always can when it is absent or a string, and when it is an int of at
    most 640 characters -- the handler raises nothing and returns a mapping
    with the one key greeting, whose value is a string that begins with
    Hello from non-proxy, (comma and space included) and ends with an
    exclamation mark.  When it cannot -- an int beyond the digit cap, a
    value nested deeper than the recursion limit allows -- the handler
    returns nothing and raises ValueError or RecursionError. *)
Theorem C10_plain_handler_total {R : PyRuntime} {Context_ : Type}
    (d : list (pystr * pyval)) (context : Context_) :
  (formattable (plain_name d) = true ->
   exists middle,
     NonProxy.lambda_handler (PDict d) context
     = Ok (PDict [(lit "greeting",
                   PStr (lit "Hello from non-proxy, " ++ middle ++ lit "!"))]))
  /\ (formattable (plain_name d) = false ->
      exists e,
        (e = ValueError \/ e = RecursionError)
        /\ NonProxy.lambda_handler (PDict d) context = Raise e)
  /\ (dict_get d (lit "name") = None -> formattable (plain_name d) = true)
  /\ (forall s,
        dict_get d (lit "name") = Some (PStr s) ->
        formattable (plain_name d) = true)
  /\ (forall z,
        dict_get d (lit "name") = Some (PInt z) ->
        N.of_nat (List.length (int_text z)) <= 640 ->
        formattable (plain_name d) = true).
Proof.
  rewrite plain_handler_resolved. split; [|split; [|split; [|split]]].
  - intro Hf. destruct (PyFacts.format_formattable _ Hf) as [n ->].
    exists n. reflexivity.
  - intro Hf. destruct (PyFacts.format_unformattable _ Hf) as (e & -> & Herr).
    exists e. split; [exact Herr|reflexivity].
  - intro H. unfold plain_name. rewrite H. reflexivity.
  - intros s H. unfold plain_name. rewrite H. reflexivity.
  - intros z H Hz. unfold plain_name. rewrite H.
    exact (PyFacts.short_int_within_cap z Hz).
Qed.

(** C10 at the events of the third and the fourth scenario, and at the
    name 42. *)
Lemma C10_witness :
  plain_name [] = PStr (lit "World")
  /\ forall R : PyRuntime,
    formattable (plain_name []) = true
    /\ formattable (plain_name [(lit "name", PStr (lit "Ada"))]) = true
    /\ formattable (plain_name [(lit "name", PInt 42)]) = true
    /\ (exists middle,
          NonProxy.lambda_handler (PDict []) tt
          = Ok (PDict [(lit "greeting",
                        PStr (lit "Hello from non-proxy, " ++ middle
                              ++ lit "!"))]))
    /\ (exists middle,
          NonProxy.lambda_handler (PDict [(lit "name", PStr (lit "Ada"))]) tt
          = Ok (PDict [(lit "greeting",
                        PStr (lit "Hello from non-proxy, " ++ middle
                              ++ lit "!"))]))
    /\ (exists middle,
          NonProxy.lambda_handler (PDict [(lit "name", PInt 42)]) tt
          = Ok (PDict [(lit "greeting",
                        PStr (lit "Hello from non-proxy, " ++ middle
                              ++ lit "!"))])).
Proof.
  split; [reflexivity|]. intro R.
  split; [reflexivity|]. split; [reflexivity|]. split; [reflexivity|].
  split; [|split].
  - exact (proj1 (@C10_plain_handler_total R unit [] tt) eq_refl).
  - exact (proj1 (@C10_plain_handler_total R unit
                    [(lit "name", PStr (lit "Ada"))] tt) eq_refl).
  - exact (proj1 (@C10_plain_handler_total R unit
                    [(lit "name", PInt 42)] tt) eq_refl).
Defined.

(** C10 as first stated fails for a mapping whose name repr cannot
    print.  Under the default digit cap of 4300 the event with the int
    10 ** 4300 under name makes the handler raise ValueError; and whatever
    the recursion limit is, a list nested deeper than it allows makes the
    handler raise RecursionError. *)
Lemma C10_counterexample :
  (exists d,
     d = [(lit "name", PInt (10 ^ 4300))]
     /\ is_mapping (PDict d) = true
     /\ forall R : PyRuntime,
        int_max_str_digits = 4300 ->
        NonProxy.lambda_handler (PDict d) tt = Raise ValueError)
  /\ forall R : PyRuntime,
     exists d,
       d = [(lit "name", nested (S recursion_room))]
       /\ is_mapping (PDict d) = true
       /\ NonProxy.lambda_handler (PDict d) tt = Raise RecursionError.
Proof.
  split.
  - eexists. split; [reflexivity|]. split; [reflexivity|].
    intros R Hcap. rewrite plain_handler_resolved.
    change (plain_name [(lit "name", PInt (10 ^ 4300))])
      with (PInt (10 ^ 4300)).
    rewrite (PyFacts.format_over_cap Hcap). reflexivity.
  - intro R. eexists. split; [reflexivity|]. split; [reflexivity|].
    rewrite plain_handler_resolved.
    change (plain_name [(lit "name", nested (S recursion_room))])
      with (nested (S recursion_room)).
    rewrite PyFacts.format_nested. reflexivity.
Qed.

(** ** Reading back any text the encoder wrote *)

Module MergeFacts.
Import Json JsonFacts TextFacts.

Lemma encode_char_surrogate (c : N) :
  0xD800 <= c <= 0xDFFF -> encode_char c = 92 :: 117 :: hex 4 c.
Proof.
  intro Hc. unfold encode_char, S_CHAR.
  replace (c <=? 126) with false by (symmetry; apply N.leb_gt; lia).
  rewrite andb_false_r. cbn [andb]. unfold escape_char.
  repeat match goal with
  | |- context [if ?x =? ?k then _ else _] =>
      replace (x =? k) with false by (symmetry; apply N.eqb_neq; lia)
  end.
  replace (65536 <=? c) with false by (symmetry; apply N.leb_gt; lia).
  reflexivity.
Qed.

(** Two escapes, a high surrogate and then a low one, are read as one
    code point. *)
Lemma scanstring_u_pair (a b : N) (tail : pystr) :
  is_high_surrogate a = true ->
  is_low_surrogate b = true ->
  tail <> [] ->
  scanstring (92 :: 117 :: hex 4 a ++ 92 :: 117 :: hex 4 b ++ tail)
  = cons_char (join_surrogates a b) (scanstring tail).
Proof.
  intros Ha Hb Hne.
  destruct tail as [|x tail]; [congruence|].
  pose proof Ha as Ha'. pose proof Hb as Hb'.
  unfold is_high_surrogate in Ha'. unfold is_low_surrogate in Hb'.
  boolean_tests.
  rewrite !hex_4. cbn [app].
  match goal with
  | |- scanstring (92 :: 117 :: ?h1 :: ?h2 :: ?h3 :: ?h4 :: 92 :: 117
                   :: ?g1 :: ?g2 :: ?g3 :: ?g4 :: x :: tail) = _ =>
    change (scanstring (92 :: 117 :: h1 :: h2 :: h3 :: h4 :: 92 :: 117
                        :: g1 :: g2 :: g3 :: g4 :: x :: tail))
      with (match hex4 h1 h2 h3 h4 with
            | None => Raise JSONDecodeError
            | Some uni =>
                if is_high_surrogate uni then
                  match hex4 g1 g2 g3 g4 with
                  | None => Raise JSONDecodeError
                  | Some uni2 =>
                      if is_low_surrogate uni2
                      then cons_char (join_surrogates uni uni2)
                             (scanstring (x :: tail))
                      else cons_char uni
                             (scanstring (92 :: 117 :: g1 :: g2 :: g3 :: g4
                                          :: x :: tail))
                  end
                else cons_char uni
                       (scanstring (92 :: 117 :: g1 :: g2 :: g3 :: g4
                                    :: x :: tail))
            end)
  end.
  rewrite !hex4_hex by lia. rewrite Ha, Hb. reflexivity.
Qed.

Lemma json_escaped_cons (c : N) (s : pystr) :
  json_escaped (c :: s) = encode_char c ++ json_escaped s.
Proof. reflexivity. Qed.

Lemma json_escaped_nonempty_tail (s rest : pystr) :
  json_escaped s ++ 34 :: rest <> [].
Proof. destruct (json_escaped s); discriminate. Qed.

(** [scanstring] reads back every text that [encode_basestring_ascii]
    wrote, with its surrogate pairs merged. *)
Lemma scanstring_encoded_any (m rest : pystr) :
  valid_str m = true ->
  scanstring (json_escaped m ++ 34 :: rest) = Ok (merge_pairs m, rest).
Proof.
  remember (List.length m) as n eqn:Hn.
  assert (Hle : (List.length m <= n)%nat) by lia. clear Hn.
  revert m Hle. induction n as [|n IH]; intros m Hle Hvalid.
  - destruct m; [reflexivity|cbn [List.length] in Hle; lia].
  - destruct m as [|a [|b m]].
    + reflexivity.
    + cbn [valid_str forallb] in Hvalid. boolean_tests.
      rewrite json_escaped_cons, <- app_assoc.
      rewrite scanstring_encode_char;
        [reflexivity|assumption|discriminate|].
      intros _. apply low_escape_ahead_quote.
    + cbn [List.length] in Hle.
      assert (Hvb : valid_str (b :: m) = true).
      { cbn [valid_str forallb] in *. boolean_tests.
        apply andb_true_iff. split; [apply N.leb_le|]; assumption. }
      assert (Hvm : valid_str m = true).
      { cbn [valid_str forallb] in *. boolean_tests. assumption. }
      cbn [valid_str forallb] in Hvalid. boolean_tests.
      cbn [merge_pairs].
      destruct (is_high_surrogate a) eqn:Ha;
        [destruct (is_low_surrogate b) eqn:Hb|]; cbn [andb].
      * (* a pair *)
        pose proof Ha as Ha'. pose proof Hb as Hb'.
        unfold is_high_surrogate in Ha'. unfold is_low_surrogate in Hb'.
        boolean_tests.
        rewrite !json_escaped_cons.
        rewrite (encode_char_surrogate a), (encode_char_surrogate b) by lia.
        cbn [app]. rewrite <- !app_assoc. cbn [app]. rewrite <- !app_assoc.
        rewrite scanstring_u_pair;
          [|assumption|assumption|apply json_escaped_nonempty_tail].
        rewrite IH; [reflexivity|lia|assumption].
      * (* a high surrogate, not followed by a low one *)
        rewrite json_escaped_cons, <- app_assoc.
        rewrite scanstring_encode_char.
        -- rewrite IH; [reflexivity|cbn [List.length]; lia|assumption].
        -- assumption.
        -- apply json_escaped_nonempty_tail.
        -- intros _. rewrite json_escaped_cons, <- app_assoc.
           cbn [valid_str forallb] in Hvb. boolean_tests.
           apply low_escape_ahead_encode_char; assumption.
      * (* not a high surrogate *)
        rewrite json_escaped_cons, <- app_assoc.
        rewrite scanstring_encode_char.
        -- rewrite IH; [reflexivity|cbn [List.length]; lia|assumption].
        -- assumption.
        -- apply json_escaped_nonempty_tail.
        -- intro Hhigh. congruence.
Qed.

Lemma merge_pairs_head (a : N) (s : pystr) :
  is_high_surrogate a = false -> merge_pairs (a :: s) = a :: merge_pairs s.
Proof.
  intro Ha. cbn [merge_pairs]. rewrite Ha. destruct s; reflexivity.
Qed.

Lemma merge_pairs_prefix (pre s : pystr) :
  forallb (fun c => negb (is_high_surrogate c)) pre = true ->
  merge_pairs (pre ++ s) = pre ++ merge_pairs s.
Proof.
  induction pre as [|a pre IH]; intro H; [reflexivity|].
  cbn [forallb] in H. apply andb_true_iff in H. destruct H as [Ha Hpre].
  apply negb_true_iff in Ha.
  cbn [app]. rewrite merge_pairs_head, IH by assumption. reflexivity.
Qed.

Lemma merge_pairs_two (a b : N) (t : pystr) :
  merge_pairs (a :: b :: t)
  = if is_high_surrogate a && is_low_surrogate b
    then join_surrogates a b :: merge_pairs t
    else a :: merge_pairs (b :: t).
Proof. reflexivity. Qed.

Lemma merge_pairs_suffix (s : pystr) (p : N) (post : pystr) :
  is_low_surrogate p = false ->
  merge_pairs (s ++ p :: post) = merge_pairs s ++ merge_pairs (p :: post).
Proof.
  intro Hp.
  remember (List.length s) as n eqn:Hn.
  assert (Hle : (List.length s <= n)%nat) by lia. clear Hn.
  revert s Hle. induction n as [|n IH]; intros s Hle.
  - destruct s; [reflexivity|cbn [List.length] in Hle; lia].
  - destruct s as [|a [|b s]].
    + reflexivity.
    + cbn [app]. rewrite merge_pairs_two, Hp, andb_false_r. reflexivity.
    + cbn [List.length] in Hle. cbn [app]. rewrite !merge_pairs_two.
      destruct (is_high_surrogate a && is_low_surrogate b).
      * rewrite IH by lia. reflexivity.
      * change (b :: s ++ p :: post) with ((b :: s) ++ p :: post).
        rewrite IH by (cbn [List.length]; lia). reflexivity.
Qed.

Lemma merge_pairs_message (n : pystr) :
  merge_pairs (proxy_message n) = proxy_message (merge_pairs n).
Proof.
  unfold proxy_message.
  rewrite merge_pairs_prefix by reflexivity.
  change (lit "! Your request was successful.")
    with (33 :: lit " Your request was successful.").
  rewrite merge_pairs_suffix by reflexivity. reflexivity.
Qed.

(** A text without a pair is read back as it is. *)
Lemma merge_pairs_pair_free (s : pystr) :
  pair_free s = true -> merge_pairs s = s.
Proof.
  induction s as [|a s IH]; intro H; [reflexivity|].
  cbn [pair_free] in H. apply andb_true_iff in H. destruct H as [Hab Hs].
  cbn [merge_pairs]. destruct s as [|b s]; [reflexivity|].
  apply negb_true_iff in Hab. rewrite Hab, IH by assumption. reflexivity.
Qed.

(** The body written for any valid name decodes, and to the message
    around the name with its pairs merged. *)
Lemma loads_body_any {R : PyRuntime} (n : pystr) :
  valid_str n = true ->
  loads (body_template (json_escaped n))
  = Ok (proxy_data (proxy_message (merge_pairs n))).
Proof.
  intro Hv.
  rewrite body_template_parts, <- json_escaped_message.
  rewrite <- merge_pairs_message.
  apply loads_object_text. intro rest.
  apply scanstring_encoded_any. apply valid_message. exact Hv.
Qed.


(** *** The body is printable ASCII *)

Lemma hexdigit_printable (d : N) :
  d < 16 -> printable_ascii (hexdigit d) = true.
Proof.
  intro Hd. unfold printable_ascii, hexdigit.
  destruct (d <? 10) eqn:E; boolean_tests;
    apply andb_true_iff; split; apply N.leb_le; lia.
Qed.

Lemma hex_4_printable (u : N) (rest : pystr) :
  forallb printable_ascii (hex 4 u ++ rest) = forallb printable_ascii rest.
Proof.
  rewrite hex_4. cbn [app forallb].
  rewrite !hexdigit_printable by (apply N.mod_lt; discriminate).
  reflexivity.
Qed.

Lemma encode_char_printable (c : N) :
  forallb printable_ascii (encode_char c) = true.
Proof.
  unfold encode_char. destruct (S_CHAR c) eqn:Eplain.
  - unfold S_CHAR in Eplain. boolean_tests.
    cbn [forallb]. unfold printable_ascii.
    rewrite andb_true_r. apply andb_true_iff.
    split; apply N.leb_le; assumption.
  - unfold escape_char.
    repeat match goal with
    | |- context [if ?x =? ?k then _ else _] =>
        destruct (x =? k); [reflexivity|]
    end.
    destruct (0x10000 <=? c).
    + cbn [app forallb]. rewrite hex_4_printable.
      cbn [forallb]. rewrite <- (app_nil_r (hex 4 (low_surrogate c))).
      rewrite hex_4_printable. reflexivity.
    + cbn [forallb]. rewrite <- (app_nil_r (hex 4 c)).
      rewrite hex_4_printable. reflexivity.
Qed.

Lemma json_escaped_printable (n : pystr) :
  forallb printable_ascii (json_escaped n) = true.
Proof.
  induction n as [|c n IH]; [reflexivity|].
  rewrite json_escaped_cons, forallb_app, encode_char_printable, IH.
  reflexivity.
Qed.

Lemma body_template_printable (n : pystr) :
  forallb printable_ascii n = true ->
  forallb printable_ascii (body_template n) = true.
Proof.
  intro H. rewrite body_template_parts. unfold proxy_message.
  rewrite !forallb_app, H. reflexivity.
Qed.

Lemma proxy_response_inj (a b : pystr) :
  Ok (proxy_response a) = Ok (proxy_response b) -> a = b.
Proof. intro H. injection H as H. exact H. Qed.

Lemma proxy_data_inj (a b : pystr) :
  @Ok pyval (proxy_data a) = Ok (proxy_data b) -> a = b.
Proof. intro H. injection H as H. exact H. Qed.

Lemma proxy_message_inj (a b : pystr) :
  proxy_message a = proxy_message b -> a = b.
Proof.
  unfold proxy_message. intro H.
  apply app_inv_head in H. apply app_inv_tail in H. exact H.
Qed.

End MergeFacts.

(** ** Further properties of the handlers *)

Section Further.
Import Json JsonFacts TextFacts HandlerFacts MergeFacts.

(** X1.  The outcome of the proxy handler, for every event, is one of
    three.  It returns its envelope exactly when the event is a mapping
    whose queryStringParameters entry is absent, false in a condition or a
    mapping, and the name it settles on can be formatted.  It raises
    AttributeError exactly when the event is not such a mapping.  It
    raises ValueError or RecursionError exactly when the event is such a
    mapping and the name cannot be formatted (an int beyond the digit cap,
    a value nested deeper than the recursion limit allows).  It raises
    nothing else. *)
Theorem X1_proxy_outcome (R : PyRuntime) (Context_ : Type)
    (event : pyval) (context : Context_) :
  match HttpGet.lambda_handler event context with
  | Ok r =>
      proxy_accepts event = true
      /\ (exists name,
            resolved_name event = Ok name /\ formattable name = true)
      /\ exists body, r = proxy_response body
  | Raise e =>
      (e = AttributeError /\ proxy_accepts event = false)
      \/ ((e = ValueError \/ e = RecursionError)
          /\ proxy_accepts event = true
          /\ exists name,
               resolved_name event = Ok name /\ formattable name = false)
  end.
Proof.
  rewrite proxy_handler_resolved.
  pose proof (resolved_outcome event) as Hres.
  destruct (resolved_name event) as [name|e]; cbn [bind].
  - pose proof (PyFacts.format_outcome name) as Hf. unfold outcome in Hf.
    destruct (formattable name) eqn:Hfmt.
    + destruct Hf as [text ->]. cbn [bind].
      split; [exact Hres|]. split; eexists; [split|]; eauto.
    + destruct Hf as (e & -> & Herr). cbn [bind]. right.
      split; [exact Herr|]. split; [exact Hres|]. eexists. eauto.
  - destruct Hres as [Hacc ->]. left. split; [reflexivity|exact Hacc].
Qed.

(** X2.  The outcome of the plain handler, for every event, is one of
    three.  On a mapping whose name (the value under name, World without
    one) can be formatted it returns the one-key greeting around the
    formatted name.  On a mapping whose name cannot be formatted it
    raises ValueError or RecursionError.  On anything that is not a mapping
    it raises AttributeError.  It raises nothing else. *)
Theorem X2_plain_outcome (R : PyRuntime) (Context_ : Type)
    (event : pyval) (context : Context_) :
  match NonProxy.lambda_handler event context with
  | Ok r =>
      exists d n,
        event = PDict d
        /\ formattable (plain_name d) = true
        /\ format (plain_name d) = Ok n
        /\ r = plain_response n
  | Raise e =>
      (e = AttributeError /\ is_mapping event = false)
      \/ ((e = ValueError \/ e = RecursionError)
          /\ exists d,
               event = PDict d /\ formattable (plain_name d) = false)
  end.
Proof.
  destruct event as [| | | | | |d];
    try (left; split; reflexivity).
  rewrite plain_handler_resolved.
  pose proof (PyFacts.format_outcome (plain_name d)) as Hf.
  unfold outcome in Hf.
  destruct (formattable (plain_name d)) eqn:Hfmt.
  - destruct Hf as [text Ht]. rewrite Ht. cbn [bind].
    exists d, text. auto.
  - destruct Hf as (e & -> & Herr). cbn [bind]. right.
    split; [exact Herr|]. exists d. auto.
Qed.

(** X3.  Each handler reads one key of the event and nothing else: two
    events with the same queryStringParameters entry get the same result
    from the proxy handler, two events with the same name entry get the
    same result from the plain handler, whatever else they hold. *)
Theorem X3_other_keys_are_ignored (R : PyRuntime) (Context_ : Type)
    (d1 d2 : list (pystr * pyval)) (context : Context_) :
  (dict_get d1 (lit "queryStringParameters")
   = dict_get d2 (lit "queryStringParameters") ->
   HttpGet.lambda_handler (PDict d1) context
   = HttpGet.lambda_handler (PDict d2) context)
  /\ (dict_get d1 (lit "name") = dict_get d2 (lit "name") ->
      NonProxy.lambda_handler (PDict d1) context
      = NonProxy.lambda_handler (PDict d2) context).
Proof.
  split; intro H.
  - rewrite !proxy_handler_resolved. unfold resolved_name, get.
    rewrite H. reflexivity.
  - unfold NonProxy.lambda_handler, get. rewrite H. reflexivity.
Qed.

(** X3 at two events that differ in a key neither handler reads. *)
Lemma X3_witness :
  let d1 := [(lit "name", PStr (lit "Ada"));
             (lit "queryStringParameters",
              PDict [(lit "name", PStr (lit "Bob"))])] in
  let d2 := [(lit "path", PStr (lit "/hello"));
             (lit "queryStringParameters",
              PDict [(lit "name", PStr (lit "Bob"))]);
             (lit "name", PStr (lit "Ada"))] in
  dict_get d1 (lit "queryStringParameters")
  = dict_get d2 (lit "queryStringParameters")
  /\ dict_get d1 (lit "name") = dict_get d2 (lit "name")
  /\ forall R : PyRuntime,
     HttpGet.lambda_handler (PDict d1) tt
     = HttpGet.lambda_handler (PDict d2) tt
     /\ NonProxy.lambda_handler (PDict d1) tt
        = NonProxy.lambda_handler (PDict d2) tt.
Proof.
  intros d1 d2. split; [reflexivity|]. split; [reflexivity|].
  intro R.
  destruct (X3_other_keys_are_ignored R unit d1 d2 tt) as [Hproxy Hplain].
  split; [apply Hproxy|apply Hplain]; reflexivity.
Defined.

(** X4.  Of a queryStringParameters mapping the proxy handler reads the
    name entry and nothing else: two events whose parameter mappings
    agree on name (both lacking it included, an empty mapping included)
    get the same result. *)
Theorem X4_other_parameters_are_ignored (R : PyRuntime) (Context_ : Type)
    (d1 d2 q1 q2 : list (pystr * pyval)) (context : Context_) :
  dict_get d1 (lit "queryStringParameters") = Some (PDict q1) ->
  dict_get d2 (lit "queryStringParameters") = Some (PDict q2) ->
  dict_get q1 (lit "name") = dict_get q2 (lit "name") ->
  HttpGet.lambda_handler (PDict d1) context
  = HttpGet.lambda_handler (PDict d2) context.
Proof.
  intros H1 H2 Hname. rewrite !proxy_handler_resolved.
  destruct (dict_get q2 (lit "name")) as [x|] eqn:Hx.
  - rewrite (resolved_named d1 q1 x H1 Hname), (resolved_named d2 q2 x H2 Hx).
    reflexivity.
  - rewrite (resolved_unnamed d1 q1 H1 Hname), (resolved_unnamed d2 q2 H2 Hx).
    reflexivity.
Qed.

(** X4 at an empty parameter mapping and one that holds another key. *)
Lemma X4_witness :
  let q1 := [] in
  let q2 := [(lit "page", PStr (lit "2"))] in
  let d1 := [(lit "queryStringParameters", PDict q1)] in
  let d2 := [(lit "queryStringParameters", PDict q2)] in
  dict_get d1 (lit "queryStringParameters") = Some (PDict q1)
  /\ dict_get d2 (lit "queryStringParameters") = Some (PDict q2)
  /\ dict_get q1 (lit "name") = dict_get q2 (lit "name")
  /\ forall R : PyRuntime,
     HttpGet.lambda_handler (PDict d1) tt
     = HttpGet.lambda_handler (PDict d2) tt.
Proof.
  intros q1 q2 d1 d2.
  split; [reflexivity|]. split; [reflexivity|]. split; [reflexivity|].
  intro R.
  apply (X4_other_parameters_are_ignored R unit d1 d2 q1 q2 tt); reflexivity.
Defined.

(** X5.  Whatever the name, the body the proxy handler returns is made
    of printable ASCII characters only (U+0020 to U+007E): json.dumps
    writes every control character and every character outside ASCII as
    an escape. *)
Theorem X5_body_is_printable_ascii (R : PyRuntime) (Context_ : Type)
    (event : pyval) (context : Context_) (r : pyval) :
  HttpGet.lambda_handler event context = Ok r ->
  exists body,
    r = proxy_response body /\ forallb printable_ascii body = true.
Proof.
  rewrite proxy_handler_resolved.
  destruct (resolved_name event) as [name|e]; [|discriminate].
  cbn [bind]. destruct (format name) as [text|e]; [|discriminate].
  cbn [bind]. intro H. injection H as <-.
  eexists. split; [reflexivity|].
  apply body_template_printable, json_escaped_printable.
Qed.

(** X5 at a name that holds an accented letter and a line feed. *)
Lemma X5_witness :
  let event := PDict [(lit "queryStringParameters",
                       PDict [(lit "name", PStr [0xE9; 10])])] in
  let body := body_template (json_escaped [0xE9; 10]) in
  forallb printable_ascii [0xE9; 10] = false
  /\ forall R : PyRuntime,
     HttpGet.lambda_handler event tt = Ok (proxy_response body)
     /\ exists body',
          proxy_response body = proxy_response body'
          /\ forallb printable_ascii body' = true.
Proof.
  intros event body. split; [reflexivity|]. intro R.
  assert (H : HttpGet.lambda_handler event tt = Ok (proxy_response body)).
  { apply (proxy_handler_of_name _ (PStr [0xE9; 10]) [0xE9; 10]);
      reflexivity. }
  split; [exact H|].
  exact (X5_body_is_printable_ascii R unit event tt _ H).
Defined.

(** X6.  The body the proxy handler returns is always a JSON text that
    json.loads accepts: for every resolved name that formatting turns into
    a text of code points up to U+10FFFF, it decodes to the object with
    status success and the message around that text, in which each high
    surrogate directly followed by a low surrogate has become the one code
    point of the pair. *)
Theorem X6_body_always_decodes (R : PyRuntime) (Context_ : Type)
    (event name : pyval) (n : pystr) (context : Context_) :
  resolved_name event = Ok name ->
  format name = Ok n ->
  valid_str n = true ->
  exists body,
    HttpGet.lambda_handler event context = Ok (proxy_response body)
    /\ loads body
       = Ok (PDict [(lit "message",
                     PStr (lit "Hello, " ++ merge_pairs n
                           ++ lit "! Your request was successful."));
                    (lit "status", PStr (lit "success"))]).
Proof.
  intros Hname Hf Hvalid. exists (body_template (json_escaped n)). split.
  - exact (proxy_handler_of_name event name n context Hname Hf).
  - apply loads_body_any. exact Hvalid.
Qed.

(** X6 at a name that holds a pair followed by the letter A. *)
Lemma X6_witness :
  let event := PDict [(lit "queryStringParameters",
                       PDict [(lit "name", PStr [0xD83D; 0xDE00; 65])])] in
  resolved_name event = Ok (PStr [0xD83D; 0xDE00; 65])
  /\ merge_pairs [0xD83D; 0xDE00; 65] = [0x1F600; 65]
  /\ valid_str [0xD83D; 0xDE00; 65] = true
  /\ forall R : PyRuntime,
     format (PStr [0xD83D; 0xDE00; 65]) = Ok [0xD83D; 0xDE00; 65]
     /\ exists body,
          HttpGet.lambda_handler event tt = Ok (proxy_response body)
          /\ loads body
             = Ok (PDict [(lit "message",
                           PStr (lit "Hello, " ++ [0x1F600; 65]
                                 ++ lit "! Your request was successful."));
                          (lit "status", PStr (lit "success"))]).
Proof.
  intro event. split; [reflexivity|]. split; [reflexivity|].
  split; [reflexivity|].
  intro R. split; [reflexivity|].
  exact (X6_body_always_decodes R unit event (PStr [0xD83D; 0xDE00; 65])
           [0xD83D; 0xDE00; 65] tt eq_refl eq_refl eq_refl).
Defined.

(** X7.  The response tells names apart: when two events resolve to
    strings that hold no high surrogate directly followed by a low one,
    and the proxy handler returns the same response for both, the two
    names are the same string. *)
Theorem X7_response_determines_name (R : PyRuntime) (Context_ : Type)
    (e1 e2 : pyval) (n1 n2 : pystr) (c1 c2 : Context_) :
  resolved_name e1 = Ok (PStr n1) ->
  resolved_name e2 = Ok (PStr n2) ->
  valid_str n1 = true -> pair_free n1 = true ->
  valid_str n2 = true -> pair_free n2 = true ->
  HttpGet.lambda_handler e1 c1 = HttpGet.lambda_handler e2 c2 ->
  n1 = n2.
Proof.
  intros H1 H2 Hv1 Hp1 Hv2 Hp2 Hsame.
  rewrite (proxy_handler_of_name e1 (PStr n1) n1 c1 H1 eq_refl) in Hsame.
  rewrite (proxy_handler_of_name e2 (PStr n2) n2 c2 H2 eq_refl) in Hsame.
  apply proxy_response_inj in Hsame.
  apply (f_equal loads) in Hsame.
  rewrite !loads_body in Hsame by assumption.
  apply proxy_message_inj, proxy_data_inj. exact Hsame.
Qed.

(** X7 at the second scenario and an event with more keys around the
    same name. *)
Lemma X7_witness :
  let e2 := PDict [(lit "path", PStr (lit "/hello"));
                   (lit "queryStringParameters",
                    PDict [(lit "page", PStr (lit "2"));
                           (lit "name", PStr (lit "Ada"))])] in
  resolved_name ada_query = Ok (PStr (lit "Ada"))
  /\ resolved_name e2 = Ok (PStr (lit "Ada"))
  /\ valid_str (lit "Ada") = true
  /\ pair_free (lit "Ada") = true
  /\ forall R : PyRuntime,
     HttpGet.lambda_handler ada_query tt = HttpGet.lambda_handler e2 tt
     /\ lit "Ada" = lit "Ada".
Proof.
  intro e2.
  split; [reflexivity|]. split; [reflexivity|].
  split; [reflexivity|]. split; [reflexivity|].
  intro R.
  assert (H : HttpGet.lambda_handler ada_query tt
              = HttpGet.lambda_handler e2 tt) by reflexivity.
  split; [exact H|].
  exact (X7_response_determines_name R unit ada_query e2 (lit "Ada")
           (lit "Ada") tt tt eq_refl eq_refl eq_refl eq_refl eq_refl eq_refl
           H).
Defined.

(** X8.  The two handlers resolve and format the name alike: for every
    event whose queryStringParameters entry is a mapping, the proxy
    handler on the event and the plain handler on that mapping come to the
    same end.  When the plain handler greets a text (the formatted name, or
    World when the mapping has no name), the proxy handler returns the
    body around that same text; when the plain handler raises, the proxy
    handler raises the same error. *)
Theorem X8_handlers_agree_on_the_name (R : PyRuntime) (Context_ : Type)
    (d q : list (pystr * pyval)) (context : Context_) :
  dict_get d (lit "queryStringParameters") = Some (PDict q) ->
  match NonProxy.lambda_handler (PDict q) context with
  | Ok r =>
      exists n,
        r = plain_response n
        /\ HttpGet.lambda_handler (PDict d) context
           = Ok (proxy_response (body_template (json_escaped n)))
  | Raise e => HttpGet.lambda_handler (PDict d) context = Raise e
  end.
Proof.
  intro Hq.
  rewrite plain_handler_resolved, proxy_handler_resolved,
    (resolved_plain_name d q Hq).
  cbn [bind]. destruct (format (plain_name q)) as [n|e]; cbn [bind].
  - exists n. split; reflexivity.
  - reflexivity.
Qed.

(** X8 at the second scenario. *)
Lemma X8_witness :
  let q := [(lit "name", PStr (lit "Ada"))] in
  let d := [(lit "queryStringParameters", PDict q)] in
  dict_get d (lit "queryStringParameters") = Some (PDict q)
  /\ forall R : PyRuntime,
     exists n,
       NonProxy.lambda_handler (PDict q) tt = Ok (plain_response n)
       /\ HttpGet.lambda_handler (PDict d) tt
          = Ok (proxy_response (body_template (json_escaped n))).
Proof.
  intros q d. split; [reflexivity|]. intro R.
  pose proof (X8_handlers_agree_on_the_name R unit d q tt eq_refl) as H.
  assert (Hplain : NonProxy.lambda_handler (PDict q) tt
                   = Ok (plain_response (lit "Ada"))) by reflexivity.
  rewrite Hplain in H. destruct H as (n & Hn & Hproxy).
  exists n. split; [rewrite Hplain, Hn; reflexivity|exact Hproxy].
Defined.

End Further.
